(** * MedOn back end: the appointments service

    A shallow embedding of [AppointmentsService]
    (src/modules/appointments/appointments.service.ts) together with the
    three collaborators it talks to: the moment clock, the TypeORM
    repositories and the TypeORM select query builder.

    - Instants ([Date]) are integers: milliseconds since the epoch.
    - Identifiers ([number]) are integers.
    - A promise is its settled outcome: resolved with a value or rejected
      with the exception that was thrown.
    - A table is the list of its rows in storage order.
    - The zone of the server is the platform's: calendar days are days of
      its wall clock, of whatever length.
    - The sources do not pin the version of TypeORM; where its versions
      differ on a call the service makes, the service is read for
      either. *)

From Stdlib Require Import ZArith List Sorted Permutation Bool Lia.
From stdpp Require Import gmap strings list fin_maps.

Local Open Scope string_scope.
Local Open Scope Z_scope.

(** ** Exceptions and promises *)

(** The four HTTP exceptions of [@nestjs/common] the service throws, the
    driver error a failed statement raises, and the [TypeError] of the
    language, which a call on [undefined] ends in. *)
Inductive Exception : Type :=
| BadRequestException (message : string)
| ConflictException (message : string)
| NotFoundException (message : string)
| UnauthorizedException (message : string)
| QueryFailedError
| TypeError (message : string).

(** The failure signals as the routing layer sees them (the HTTP status
    family each exception class stands for; an error that is no HTTP
    exception is an internal error). *)
Inductive Signal : Type :=
| InvalidRequest | Conflict | NotFound | Unauthorized | StoreFailure
| InternalError.

Definition signal (e : Exception) : Signal :=
  match e with
  | BadRequestException _ => InvalidRequest
  | ConflictException _ => Conflict
  | NotFoundException _ => NotFound
  | UnauthorizedException _ => Unauthorized
  | QueryFailedError => StoreFailure
  | TypeError _ => InternalError
  end.

Inductive Promise (A : Type) : Type :=
| Resolved (value : A)
| Rejected (error : Exception).
Arguments Resolved {A} value.
Arguments Rejected {A} error.

(** [await]: continue with the value, or propagate the rejection. *)
#[global] Instance Promise_bind : MBind Promise := fun A B k p =>
  match p with
  | Resolved a => k a
  | Rejected e => Rejected e
  end.
#[global] Instance Promise_ret : MRet Promise := fun A a => Resolved a.

(** ** Entities *)

Module Appointment.
Record t : Type := make {
  id : Z;
  link : string;
  startTime : Z;
  endTime : Z;
  localDoctorId : Z;
  remoteDoctorId : Z;
  patientId : Z;
}.

Definition with_link (l : string) (a : t) : t :=
  {| id := id a; link := l; startTime := startTime a; endTime := endTime a;
     localDoctorId := localDoctorId a; remoteDoctorId := remoteDoctorId a;
     patientId := patientId a |}.
End Appointment.

Module Doctor.
Record t : Type := make { id : Z; role : string }.
End Doctor.

(** Modelled from the spec: the [Role] enum of [@common/enums] is not part
    of the sources at hand; the data model names its two variants "local"
    and "remote". *)
Module Role.
Definition LocalDoctor : string := "local".
Definition RemoteDoctor : string := "remote".
End Role.

(** Modelled from the spec: the [Filter] enum of [@common/enums] is not part
    of the sources at hand; the request shape lists "today", "future" and
    "past". *)
Module Filter.
Definition today : string := "today".
Definition future : string := "future".
Definition past : string := "past".
End Filter.

(** [CreateAppointmentDto] and [PaginationOptionsDto], by the fields the
    service reads. *)
Record CreateAppointmentDto : Type := {
  dto_link : string;
  dto_startTime : Z;
  dto_endTime : Z;
  dto_localDoctorId : Z;
  dto_remoteDoctorId : Z;
  dto_patientId : Z;
}.

Record PaginationOptionsDto : Type := {
  offset : nat;
  limit : nat;
  filter : string;
  showAll : bool;
}.

Record Database : Type := {
  appointments : list Appointment.t;
  doctors : list Doctor.t;
}.

(** ** The clock: moment *)

Definition day_ms : Z := 86400000.

(** The process the service runs in: its clock and the zone of its
    platform. A wall-clock time is written as the instant it would be in
    UTC. [localOf] reads the wall clock of an instant, [instantOf] is the
    instant the platform takes a wall-clock time for: across a change of
    offset (daylight saving) the two are not inverse, an hour is read
    twice or not at all. What the platform keeps is the calendar day of a
    wall-clock time it is handed (a zone that drops a whole calendar day,
    as happened once on the date line, is left out). *)
Record Server : Type := {
  clock : Z;
  localOf : Z -> Z;
  instantOf : Z -> Z;
  same_day : forall w, localOf (instantOf w) / day_ms = w / day_ms;
}.

(** A server whose zone has one offset all year
    (wall clock = UTC + [offset], in milliseconds). *)
Definition fixed_zone (now offset : Z) : Server :=
  {| clock := now;
     localOf := fun t => t + offset;
     instantOf := fun w => w - offset;
     same_day := fun w =>
       f_equal (fun x => x / day_ms) (Z.sub_add offset w) |}.

Module moment.
(** A moment object: an instant and the mode flag that [utc()] sets. *)
Record t : Type := make { valueOf : Z; isUTC : bool }.

Definition now (srv : Server) : t := {| valueOf := clock srv; isUTC := false |}.
Definition of_date (d : Z) : t := {| valueOf := d; isUTC := false |}.
Definition utc (m : t) : t := {| valueOf := valueOf m; isUTC := true |}.
Definition toDate (m : t) : Z := valueOf m.

(** The wall clock the calendar operations of [m] read: UTC in UTC mode,
    the platform's zone otherwise; and the moment that shows wall-clock
    time [w] in the mode of [m]. *)
Definition wall (srv : Server) (m : t) : Z :=
  if isUTC m then valueOf m else localOf srv (valueOf m).

Definition at_wall (srv : Server) (m : t) (w : Z) : t :=
  {| valueOf := if isUTC m then w else instantOf srv w; isUTC := isUTC m |}.

(** [startOf('day')]: midnight of the calendar day. *)
Definition startOf_day (srv : Server) (m : t) : t :=
  at_wall srv m (wall srv m / day_ms * day_ms).

(** [endOf('day')]: one millisecond before midnight of the next calendar
    day. *)
Definition endOf_day (srv : Server) (m : t) : t :=
  {| valueOf :=
       valueOf (at_wall srv m ((wall srv m / day_ms + 1) * day_ms)) - 1;
     isUTC := isUTC m |}.

(** [add(n, 'days')] and [subtract(n, 'days')] move the calendar date and
    keep the time of day on the wall clock. *)
Definition add_days (srv : Server) (n : Z) (m : t) : t :=
  at_wall srv m (wall srv m + n * day_ms).

Definition subtract_days (srv : Server) (n : Z) (m : t) : t :=
  at_wall srv m (wall srv m - n * day_ms).
End moment.

(** ** The select query builder *)

Inductive Column : Type :=
| col_id | col_startTime | col_endTime
| col_localDoctorId | col_remoteDoctorId | col_patientId.

Definition column (c : Column) (a : Appointment.t) : Z :=
  match c with
  | col_id => Appointment.id a
  | col_startTime => Appointment.startTime a
  | col_endTime => Appointment.endTime a
  | col_localDoctorId => Appointment.localDoctorId a
  | col_remoteDoctorId => Appointment.remoteDoctorId a
  | col_patientId => Appointment.patientId a
  end.

Inductive Comparison : Type := op_lt | op_le | op_gt | op_ge | op_eq.

Definition compare_with (op : Comparison) (x y : Z) : bool :=
  match op with
  | op_lt => x <? y
  | op_le => x <=? y
  | op_gt => x >? y
  | op_ge => x >=? y
  | op_eq => x =? y
  end.

(** The condition strings the service passes, parsed: a column compared
    with a named parameter [:p], joined by AND and OR. *)
Inductive Condition : Type :=
| Cmp (c : Column) (op : Comparison) (param : string)
| And (l r : Condition)
| Or (l r : Condition).

(** A condition over a row, under the statement's parameters; [None] when
    a parameter it names was never set. *)
Fixpoint holds (ps : gmap string Z) (c : Condition) (a : Appointment.t)
  : option bool :=
  match c with
  | Cmp col op p => v ← ps !! p; Some (compare_with op (column col a) v)
  | And l r => x ← holds ps l a; y ← holds ps r a; Some (x && y)
  | Or l r => x ← holds ps l a; y ← holds ps r a; Some (x || y)
  end.

Inductive WhereType : Type := w_simple | w_and | w_or.

Record SelectQueryBuilder : Type := {
  wheres : list (WhereType * Condition);
  parameters : gmap string Z;
  orderBys : option Column;
  skip_ : option nat;
  take_ : option nat;
}.

Definition createQueryBuilder : SelectQueryBuilder :=
  {| wheres := []; parameters := ∅; orderBys := None;
     skip_ := None; take_ := None |}.

(** [setParameters]: every given key is set, over what was there. *)
Definition setParameters (ps : gmap string Z) (qb : SelectQueryBuilder)
  : SelectQueryBuilder :=
  {| wheres := wheres qb; parameters := ps ∪ parameters qb;
     orderBys := orderBys qb; skip_ := skip_ qb; take_ := take_ qb |}.

Definition set_wheres (ws : list (WhereType * Condition))
  (qb : SelectQueryBuilder) : SelectQueryBuilder :=
  {| wheres := ws; parameters := parameters qb;
     orderBys := orderBys qb; skip_ := skip_ qb; take_ := take_ qb |}.

(** [where(condition, parameters)] starts the WHERE clause afresh. *)
Definition where_ (c : Condition) (ps : gmap string Z)
  (qb : SelectQueryBuilder) : SelectQueryBuilder :=
  setParameters ps (set_wheres [(w_simple, c)] qb).

(** The library at hand. The sources do not pin its version, and the two
    lines of it differ on [where(undefined, parameters)]: up to 0.2.34 the
    call leaves the clause empty and sets the parameters; from 0.2.35 on,
    and in 0.3.x, it takes [undefined] for an object of conditions and
    ends in a [TypeError]. *)
Inductive Typeorm : Type := legacy | current.

Definition where_undefined (orm : Typeorm) (ps : gmap string Z)
  (qb : SelectQueryBuilder) : Promise SelectQueryBuilder :=
  match orm with
  | legacy => Resolved (setParameters ps (set_wheres [] qb))
  | current =>
      Rejected (TypeError "Cannot convert undefined or null to object")
  end.

Definition andWhere (c : Condition) (ps : gmap string Z)
  (qb : SelectQueryBuilder) : SelectQueryBuilder :=
  setParameters ps (set_wheres (wheres qb ++ [(w_and, c)]) qb).

Definition orWhere (c : Condition) (ps : gmap string Z)
  (qb : SelectQueryBuilder) : SelectQueryBuilder :=
  setParameters ps (set_wheres (wheres qb ++ [(w_or, c)]) qb).

Definition orderBy (c : Column) (qb : SelectQueryBuilder) : SelectQueryBuilder :=
  {| wheres := wheres qb; parameters := parameters qb;
     orderBys := Some c; skip_ := skip_ qb; take_ := take_ qb |}.

Definition skip (n : nat) (qb : SelectQueryBuilder) : SelectQueryBuilder :=
  {| wheres := wheres qb; parameters := parameters qb;
     orderBys := orderBys qb; skip_ := Some n; take_ := take_ qb |}.

Definition take (n : nat) (qb : SelectQueryBuilder) : SelectQueryBuilder :=
  {| wheres := wheres qb; parameters := parameters qb;
     orderBys := orderBys qb; skip_ := skip_ qb; take_ := Some n |}.

(** The WHERE clause is the conditions written one after the other, each
    but the first behind its AND or OR; AND binds tighter than OR, so the
    clause is a disjunction of runs of conjunctions. [acc] is the run being
    read. The conditions the service passes are conjunctions, or a
    disjunction in parentheses, so each keeps its own reading inside the
    clause. *)
Fixpoint where_rest (ps : gmap string Z) (ws : list (WhereType * Condition))
  (acc : bool) (a : Appointment.t) : option bool :=
  match ws with
  | [] => Some acc
  | (w_or, c) :: ws' =>
      x ← holds ps c a; y ← where_rest ps ws' x a; Some (acc || y)
  | (_, c) :: ws' =>
      x ← holds ps c a; where_rest ps ws' (acc && x) a
  end.

Definition where_holds (ps : gmap string Z) (ws : list (WhereType * Condition))
  (a : Appointment.t) : option bool :=
  match ws with
  | [] => Some true
  | (_, c) :: ws' => x ← holds ps c a; where_rest ps ws' x a
  end.

(** The rows a statement selects, in storage order; [None] when the
    statement cannot be run on some row. *)
Fixpoint select (ps : gmap string Z) (ws : list (WhereType * Condition))
  (rows : list Appointment.t) : option (list Appointment.t) :=
  match rows with
  | [] => Some []
  | a :: rows' =>
      keep ← where_holds ps ws a;
      rest ← select ps ws rows';
      Some (if keep : bool then a :: rest else rest)
  end.

(** ORDER BY one column, ascending. SQL leaves the order of rows with
    equal keys open; here they keep their storage order (an earlier row is
    put before the later rows it ties with). *)
Fixpoint insert_by (key : Appointment.t -> Z) (a : Appointment.t)
  (l : list Appointment.t) : list Appointment.t :=
  match l with
  | [] => [a]
  | b :: l' => if key a <=? key b then a :: l else b :: insert_by key a l'
  end.

Fixpoint sort_by (key : Appointment.t -> Z) (l : list Appointment.t)
  : list Appointment.t :=
  match l with
  | [] => []
  | a :: l' => insert_by key a (sort_by key l')
  end.

Definition ordered (o : option Column) (l : list Appointment.t)
  : list Appointment.t :=
  match o with Some c => sort_by (column c) l | None => l end.

(** [skip] and [take]: OFFSET and LIMIT over the ordered rows. The library
    tests the two numbers for truth, so [take(0)] sends no LIMIT at all and
    every row after the skipped ones comes back. *)
Definition paged (s t : option nat) (l : list Appointment.t)
  : list Appointment.t :=
  let l1 := match s with Some n => skipn n l | None => l end in
  match t with
  | Some (S n) => firstn (S n) l1
  | Some O | None => l1
  end.

(** [leftJoinAndSelect] on the patient and the two doctors and [select]
    shape the objects handed back, not which appointments are: each
    appointment has one patient and one doctor on either side. They are
    left out and the rows are handed back whole, so that the statements
    below can speak of every column of what is returned. *)
Definition getMany (qb : SelectQueryBuilder) (rows : list Appointment.t)
  : Promise (list Appointment.t) :=
  match select (parameters qb) (wheres qb) rows with
  | Some l => Resolved (paged (skip_ qb) (take_ qb) (ordered (orderBys qb) l))
  | None => Rejected QueryFailedError
  end.

Definition getOne (qb : SelectQueryBuilder) (rows : list Appointment.t)
  : Promise (option Appointment.t) :=
  l ← getMany qb rows; Resolved (head l).

(** ** The repositories *)

Module Repository.
(** [findOne({ where: { id } })] *)
Definition findOne {A : Type} (key : A -> Z) (id : Z) (rows : list A)
  : option A :=
  List.find (fun r => key r =? id) rows.

(** [delete(id)] *)
Definition delete (id : Z) (rows : list Appointment.t) : list Appointment.t :=
  List.filter (fun a => negb (Appointment.id a =? id)) rows.

(** [update(id, { link })] *)
Definition update_link (id : Z) (link : string) (rows : list Appointment.t)
  : list Appointment.t :=
  List.map (fun a => if Appointment.id a =? id
                     then Appointment.with_link link a else a) rows.
End Repository.

(** The [DeepPartial<Appointment>] handed to [save]: every column but the
    generated identifier. *)
Record DeepPartialAppointment : Type := {
  p_link : string;
  p_startTime : Z;
  p_endTime : Z;
  p_localDoctorId : Z;
  p_remoteDoctorId : Z;
  p_patientId : Z;
}.

(** What a failing [save] throws. *)
Inductive StoreError : Type :=
| UniqueViolation
| ForeignKeyViolation
| ConnectionLost
| OtherError (description : string).

Definition with_appointments (rows : list Appointment.t) (db : Database)
  : Database :=
  {| appointments := rows; doctors := doctors db |}.

(** ** The service *)

Section AppointmentsService.

(** [appointmentRepository.save]: the constraints of the table live in
    the entity declaration and in the database, so the service is read
    for any behaviour of [save]. *)
Variable save :
  Database -> DeepPartialAppointment -> (StoreError + Appointment.t) * Database.

Definition getAllAppointmentsByDoctorId (db : Database) (id : Z)
  : Promise (list Appointment.t) :=
  appointments ←
    getMany
      (orWhere (Cmp col_remoteDoctorId op_eq "id") {[ "id" := id ]}
        (where_ (Cmp col_localDoctorId op_eq "id") {[ "id" := id ]}
          createQueryBuilder))
      (appointments db);
  if (length appointments =? 0)%nat
  then Rejected (UnauthorizedException "Appointments no found!")
  else Resolved appointments.

Definition getAppointmentById (db : Database) (id : Z)
  : Promise (option Appointment.t) :=
  Resolved (Repository.findOne Appointment.id id (appointments db)).

Definition createAppointment (db : Database)
  (createAppointmentDto : CreateAppointmentDto)
  : Promise Appointment.t * Database :=
  let startTime :=
    moment.toDate (moment.utc (moment.of_date (dto_startTime createAppointmentDto))) in
  let endTime :=
    moment.toDate (moment.utc (moment.of_date (dto_endTime createAppointmentDto))) in
  let appointment :=
    {| p_link := dto_link createAppointmentDto;
       p_startTime := startTime;
       p_endTime := endTime;
       p_localDoctorId := dto_localDoctorId createAppointmentDto;
       p_remoteDoctorId := dto_remoteDoctorId createAppointmentDto;
       p_patientId := dto_patientId createAppointmentDto |} in
  match save db appointment with
  | (inr savedAppointment, db') => (Resolved savedAppointment, db')
  | (inl error, db') =>
      (Rejected (ConflictException
         "Error: An appointment with this time interval already exists."),
       db')
  end.

Definition deleteAppointment (db : Database) (id : Z)
  : Promise unit * Database :=
  (Resolved tt, with_appointments (Repository.delete id (appointments db)) db).

Definition getAppointmentsByPatientId (db : Database) (id : Z)
  : Promise (list Appointment.t) :=
  getMany
    (where_ (Cmp col_patientId op_eq "id") {[ "id" := id ]}
      createQueryBuilder)
    (appointments db).

Definition getActiveAppointmentByDoctorId (srv : Server) (db : Database)
  (id : Z) : Promise (option Appointment.t) :=
  let now := moment.toDate (moment.utc (moment.now srv)) in
  getOne
    (andWhere
       (Or (Cmp col_remoteDoctorId op_eq "id") (Cmp col_localDoctorId op_eq "id"))
       {[ "id" := id ]}
       (where_
          (And (Cmp col_startTime op_lt "now") (Cmp col_endTime op_gt "now"))
          {[ "now" := now ]}
          createQueryBuilder))
    (appointments db).

Definition getFutureAppointmentsByDoctorId (srv : Server) (db : Database)
  (id : Z) (pagination : PaginationOptionsDto) : Promise (list Appointment.t) :=
  let now := moment.toDate (moment.utc (moment.now srv)) in
  getMany
    (take (limit pagination)
      (skip (offset pagination)
        (orderBy col_startTime
          (where_
             (And (Cmp col_endTime op_ge "now")
                  (Or (Cmp col_localDoctorId op_eq "id")
                      (Cmp col_remoteDoctorId op_eq "id")))
             {[ "now" := now; "id" := id ]}
             createQueryBuilder))))
    (appointments db).

(** [whereClause] is declared and not assigned before [where] is called
    with it: the call is [where(undefined, parameters)]. The assignments
    in the branches of the switch come after that call. *)
Definition getAllAppointments (orm : Typeorm) (srv : Server) (db : Database)
  (id : Z) (pagination : PaginationOptionsDto) : Promise (list Appointment.t) :=
  match Repository.findOne Doctor.id id (doctors db) with
  | None => Rejected (NotFoundException "Doctor not found")
  | Some doctor =>
      let now := moment.toDate (moment.utc (moment.now srv)) in
      let startOfDay := moment.toDate (moment.startOf_day srv (moment.now srv)) in
      appointmentQueryBuilder ←
        where_undefined orm
          {[ "startOfDay" := startOfDay;
             "endOfDay" := moment.toDate (moment.endOf_day srv (moment.now srv));
             "now" := now ]}
          createQueryBuilder;
      appointmentQueryBuilder ←
        (if String.eqb (Doctor.role doctor) Role.LocalDoctor then
           if negb (showAll pagination)
           then Resolved (andWhere (Cmp col_localDoctorId op_eq "id")
                            {[ "id" := id ]} appointmentQueryBuilder)
           else Resolved appointmentQueryBuilder
         else if String.eqb (Doctor.role doctor) Role.RemoteDoctor then
           Resolved (andWhere (Cmp col_remoteDoctorId op_eq "id")
                       {[ "id" := id ]} appointmentQueryBuilder)
         else Rejected (BadRequestException "Invalid role"));
      appointmentQueryBuilder ←
        (if String.eqb (filter pagination) Filter.today then
           let whereClause :=
             Some (And (Cmp col_startTime op_ge "startOfDay")
                       (Cmp col_endTime op_le "endOfDay")) in
           Resolved
             (take (limit pagination)
               (skip (offset pagination * limit pagination)
                 (orderBy col_startTime appointmentQueryBuilder)))
         else if String.eqb (filter pagination) Filter.future then
           let whereClause :=
             Some (And (Cmp col_startTime op_ge "startOfDay")
                       (Cmp col_startTime op_lt "nextDay")) in
           let nextDay :=
             moment.toDate
               (moment.startOf_day srv
                 (moment.add_days srv (Z.of_nat (offset pagination) + 1)
                   (moment.of_date startOfDay))) in
           Resolved
             (take (limit pagination)
               (skip (offset pagination * limit pagination)
                 (andWhere
                    (And (Cmp col_startTime op_ge "startOfDay")
                         (Cmp col_startTime op_lt "nextDay"))
                    {[ "startOfDay" := startOfDay; "nextDay" := nextDay ]}
                    (orderBy col_startTime appointmentQueryBuilder))))
         else if String.eqb (filter pagination) Filter.past then
           let whereClause :=
             Some (And (Cmp col_endTime op_ge "prevDay")
                       (Cmp col_endTime op_lt "startOfDay")) in
           let prevDay :=
             moment.toDate
               (moment.endOf_day srv
                 (moment.subtract_days srv (Z.of_nat (offset pagination) + 1)
                   (moment.of_date startOfDay))) in
           Resolved
             (take (limit pagination)
               (skip (offset pagination * limit pagination)
                 (andWhere
                    (And (Cmp col_endTime op_ge "prevDay")
                         (Cmp col_endTime op_lt "startOfDay"))
                    {[ "prevDay" := prevDay; "startOfDay" := startOfDay ]}
                    (orderBy col_endTime appointmentQueryBuilder))))
         else
           Rejected (BadRequestException
                       ("Invalid filter: " +:+ filter pagination)));
      getMany appointmentQueryBuilder (appointments db)
  end.

Definition postLinkAppointment (db : Database) (id : Z) (link : string)
  : Promise unit * Database :=
  (Resolved tt,
   with_appointments (Repository.update_link id link (appointments db)) db).

End AppointmentsService.

(** Modelled from the spec: the constraint of the appointment table is
    declared with the [Appointment] entity, which is not part of the sources
    at hand. The data model states it: no two appointments of the same
    doctor, local or remote, overlap in time, and the store rejects a row
    that would. *)
Definition overlaps (p : DeepPartialAppointment) (a : Appointment.t) : bool :=
  ((p_localDoctorId p =? Appointment.localDoctorId a)
   || (p_remoteDoctorId p =? Appointment.remoteDoctorId a))
  && (p_startTime p <? Appointment.endTime a)
  && (Appointment.startTime a <? p_endTime p).

Definition next_id (rows : list Appointment.t) : Z :=
  1 + fold_right Z.max 0 (List.map Appointment.id rows).

(** Modelled from the spec: [save] on a table under that constraint. The
    row is rejected when it overlaps a stored one, and is otherwise stored
    under a fresh identifier and handed back. *)
Definition save_exclusive (db : Database) (p : DeepPartialAppointment)
  : (StoreError + Appointment.t) * Database :=
  if existsb (overlaps p) (appointments db) then (inl UniqueViolation, db)
  else
    let a := {| Appointment.id := next_id (appointments db);
                Appointment.link := p_link p;
                Appointment.startTime := p_startTime p;
                Appointment.endTime := p_endTime p;
                Appointment.localDoctorId := p_localDoctorId p;
                Appointment.remoteDoctorId := p_remoteDoctorId p;
                Appointment.patientId := p_patientId p |} in
    (inr a, with_appointments (appointments db ++ [a]) db).

(** ** Vocabulary of the statements *)

(** Start of the current day, as [getAllAppointments] computes it. *)
Definition startOfToday (srv : Server) : Z :=
  moment.toDate (moment.startOf_day srv (moment.now srv)).

Definition endOfToday (srv : Server) : Z :=
  moment.toDate (moment.endOf_day srv (moment.now srv)).

(** The calendar day of the server's wall clock, counted from the epoch,
    and the instant the platform takes midnight of day [k] for. *)
Definition today_number (srv : Server) : Z :=
  localOf srv (clock srv) / day_ms.

Definition midnight (srv : Server) (k : Z) : Z :=
  instantOf srv (k * day_ms).

(** Start of the current day on the UTC calendar. *)
Definition startOfTodayUTC (srv : Server) : Z :=
  moment.toDate (moment.startOf_day srv (moment.utc (moment.now srv))).

(** The page of a listing a request asks for: the rows after the first
    [offset * limit], [limit] of them, or all of them when [limit] is 0. *)
Definition page (pagination : PaginationOptionsDto) (l : list Appointment.t)
  : list Appointment.t :=
  let rest := skipn (offset pagination * limit pagination) l in
  if (limit pagination =? 0)%nat then rest
  else firstn (limit pagination) rest.

(** Ascending in a column. *)
Definition ascending (c : Column) (l : list Appointment.t) : Prop :=
  StronglySorted (fun a b => column c a <= column c b) l.

(** The doctor takes part in the appointment, on either side. *)
Definition involves (id : Z) (a : Appointment.t) : Prop :=
  Appointment.localDoctorId a = id \/ Appointment.remoteDoctorId a = id.

(** What a doctor may see of the table, by role and [showAll]. *)
Definition visible (d : Doctor.t) (all : bool) (id : Z) (a : Appointment.t)
  : bool :=
  if String.eqb (Doctor.role d) Role.LocalDoctor
  then all || (Appointment.localDoctorId a =? id)
  else Appointment.remoteDoctorId a =? id.

Definition recognized (role : string) : Prop :=
  role = Role.LocalDoctor \/ role = Role.RemoteDoctor.

(** The two windows the time filters cut, as the statements bind them:
    from the start of today to midnight of the day [offset + 1] days
    after today; and from one millisecond before midnight of the day
    [offset] days before today to the start of today. Days are calendar
    days of the server's wall clock. *)
Definition within_future (srv : Server) (pagination : PaginationOptionsDto)
  (a : Appointment.t) : bool :=
  (startOfToday srv <=? Appointment.startTime a)
  && (Appointment.startTime a
      <? midnight srv (today_number srv + Z.of_nat (offset pagination) + 1)).

Definition within_past (srv : Server) (pagination : PaginationOptionsDto)
  (a : Appointment.t) : bool :=
  (midnight srv (today_number srv - Z.of_nat (offset pagination)) - 1
   <=? Appointment.endTime a)
  && (Appointment.endTime a <? startOfToday srv).

(** The clause [getActiveAppointmentByDoctorId] runs, row by row. *)
Definition active (now id : Z) (a : Appointment.t) : bool :=
  (Appointment.startTime a <? now) && (Appointment.endTime a >? now)
  && ((Appointment.remoteDoctorId a =? id) || (Appointment.localDoctorId a =? id)).

(** The time filter of a request and the column it orders by. Neither
    looks at who asks. *)
Definition time_window (srv : Server) (pagination : PaginationOptionsDto)
  (a : Appointment.t) : bool :=
  if String.eqb (filter pagination) Filter.today then true
  else if String.eqb (filter pagination) Filter.future
       then within_future srv pagination a
       else within_past srv pagination a.

Definition sort_column (pagination : PaginationOptionsDto) : Column :=
  if String.eqb (filter pagination) Filter.past
  then col_endTime else col_startTime.

Definition known_filter (f : string) : Prop :=
  f = Filter.today \/ f = Filter.future \/ f = Filter.past.

(** The row a create request asks for, with its instants normalised. *)
Definition draft (dto : CreateAppointmentDto) : DeepPartialAppointment :=
  {| p_link := dto_link dto;
     p_startTime := moment.toDate (moment.utc (moment.of_date (dto_startTime dto)));
     p_endTime := moment.toDate (moment.utc (moment.of_date (dto_endTime dto)));
     p_localDoctorId := dto_localDoctorId dto;
     p_remoteDoctorId := dto_remoteDoctorId dto;
     p_patientId := dto_patientId dto |}.

(** A stored appointment is in the way of a request: one of the two
    doctors is the same and the two intervals share an instant. *)
Definition clashes (dto : CreateAppointmentDto) (a : Appointment.t) : Prop :=
  (dto_localDoctorId dto = Appointment.localDoctorId a
   \/ dto_remoteDoctorId dto = Appointment.remoteDoctorId a)
  /\ p_startTime (draft dto) < Appointment.endTime a
  /\ Appointment.startTime a < p_endTime (draft dto).

(** Two rows that differ in the link at most. *)
Definition same_but_link (a a' : Appointment.t) : Prop :=
  Appointment.id a' = Appointment.id a
  /\ Appointment.startTime a' = Appointment.startTime a
  /\ Appointment.endTime a' = Appointment.endTime a
  /\ Appointment.localDoctorId a' = Appointment.localDoctorId a
  /\ Appointment.remoteDoctorId a' = Appointment.remoteDoctorId a
  /\ Appointment.patientId a' = Appointment.patientId a.

Definition conflict_message : string :=
  "Error: An appointment with this time interval already exists.".

(** What line 157 ends in where the library refuses [undefined]. *)
Definition undefined_clause : Exception :=
  TypeError "Cannot convert undefined or null to object".

(** The page the specification describes for the future filter, in its
    words: the bucket is the day [offset] days ahead, from start-of-today
    plus [offset] days to start-of-today plus [offset + 1] days, in
    ascending startTime; of it, [offset * limit] rows are skipped and
    [limit] rows taken. *)
Definition future_page_as_specified (srv : Server)
  (pagination : PaginationOptionsDto) (d : Doctor.t) (id : Z)
  (rows : list Appointment.t) : list Appointment.t :=
  firstn (limit pagination)
    (skipn (offset pagination * limit pagination)
       (sort_by Appointment.startTime
          (List.filter
             (fun a =>
                visible d (showAll pagination) id a
                && (startOfToday srv + Z.of_nat (offset pagination) * day_ms
                    <=? Appointment.startTime a)
                && (Appointment.startTime a
                    <? startOfToday srv
                       + (Z.of_nat (offset pagination) + 1) * day_ms))
             rows))).

(** ** A small clinic, for the examples *)

Module Clinic.
Definition hour_ms : Z := 3600000.
Definition at_ (day hour : Z) : Z := day * day_ms + hour * hour_ms.

(** 2023-06-15, counted in days from the epoch. *)
Definition today : Z := 19523.

Definition staff : list Doctor.t :=
  [ Doctor.make 1 Role.LocalDoctor;
    Doctor.make 2 Role.RemoteDoctor;
    Doctor.make 3 "admin" ].

Definition checkup : Appointment.t :=
  Appointment.make 1 "https://meet.example/1"
    (at_ today 9) (at_ today 10) 1 2 7.
Definition followup : Appointment.t :=
  Appointment.make 2 "https://meet.example/2"
    (at_ today 14) (at_ today 15) 1 2 8.
Definition lastweek : Appointment.t :=
  Appointment.make 3 "https://meet.example/3"
    (at_ (today - 7) 9) (at_ (today - 7) 10) 1 2 7.
Definition nextweek : Appointment.t :=
  Appointment.make 4 "https://meet.example/4"
    (at_ (today + 7) 9) (at_ (today + 7) 10) 1 2 7.

Definition db : Database :=
  {| appointments := [checkup; followup; lastweek; nextweek];
     doctors := staff |}.

(** A server on UTC at noon, at 09:00 sharp and at 01:00; and one four
    hours west of Greenwich at that same 01:00 UTC. *)
Definition noon : Server := fixed_zone (at_ today 12) 0.
Definition nine : Server := fixed_zone (at_ today 9) 0.

Definition request (f : string) (o l : nat) (all : bool)
  : PaginationOptionsDto :=
  {| offset := o; limit := l; filter := f; showAll := all |}.

Definition booking (s e l r : Z) : CreateAppointmentDto :=
  {| dto_link := "https://meet.example/new";
     dto_startTime := s; dto_endTime := e;
     dto_localDoctorId := l; dto_remoteDoctorId := r;
     dto_patientId := 7 |}.

(** A store that is down. *)
Definition save_down (db : Database) (p : DeepPartialAppointment)
  : (StoreError + Appointment.t) * Database :=
  (inl ConnectionLost, db).
End Clinic.

(** ** Vocabulary of the further statements *)

(** The doctor is on the appointment, as the clauses test it. *)
Definition by_doctor (id : Z) (a : Appointment.t) : bool :=
  (Appointment.localDoctorId a =? id) || (Appointment.remoteDoctorId a =? id).

(** The clause [getFutureAppointmentsByDoctorId] runs, row by row. *)
Definition upcoming (now id : Z) (a : Appointment.t) : bool :=
  (now <=? Appointment.endTime a) && by_doctor id a.

(** What [update(id, { link })] does to one row. *)
Definition relinked (id : Z) (link : string) (a : Appointment.t)
  : Appointment.t :=
  if Appointment.id a =? id then Appointment.with_link link a else a.

(** The value a promise resolves with, seen through [f]. *)
Definition Promise_map {A B : Type} (f : A -> B) (p : Promise A) : Promise B :=
  match p with
  | Resolved a => Resolved (f a)
  | Rejected e => Rejected e
  end.

(** The clinic the night after: one appointment of yesterday ended at the
    last millisecond of the day, one at ten in the morning. *)
Module Night.
Definition late : Appointment.t :=
  Appointment.make 1 "https://meet.example/late"
    (Clinic.at_ (Clinic.today - 1) 23) (Clinic.at_ Clinic.today 0 - 1) 1 2 7.
Definition morning : Appointment.t :=
  Appointment.make 2 "https://meet.example/morning"
    (Clinic.at_ (Clinic.today - 1) 9) (Clinic.at_ (Clinic.today - 1) 10) 1 2 7.
Definition db : Database :=
  {| appointments := [morning; late]; doctors := Clinic.staff |}.
(** Half past nine on the day of the clinic's appointments. *)
Definition half_past_nine : Server :=
  fixed_zone (Clinic.at_ Clinic.today 9 + 1800000) 0.
End Night.

(** The clinic with tomorrow booked as well: the two appointments of
    today and two more at the same hours tomorrow. *)
Module Week.
Definition early : Appointment.t :=
  Appointment.make 5 "https://meet.example/5"
    (Clinic.at_ (Clinic.today + 1) 9) (Clinic.at_ (Clinic.today + 1) 10) 1 2 7.
Definition late : Appointment.t :=
  Appointment.make 6 "https://meet.example/6"
    (Clinic.at_ (Clinic.today + 1) 14) (Clinic.at_ (Clinic.today + 1) 15) 1 2 8.
Definition db : Database :=
  {| appointments := [Clinic.checkup; Clinic.followup; early; late];
     doctors := Clinic.staff |}.
End Week.

(** Central European time in the night of 26 March 2023: one hour ahead
    of UTC until 01:00 UTC, two hours ahead from then on. The wall clock
    jumps from 02:00 to 03:00; a time in the hour it skips is taken with
    the offset before the change, as the platform does. *)
Module Berlin.
Definition change : Z := Clinic.at_ 19442 1.
Definition local (t : Z) : Z :=
  if t <? change then t + Clinic.hour_ms else t + 2 * Clinic.hour_ms.
Definition instant (w : Z) : Z :=
  if w <? change + 2 * Clinic.hour_ms
  then w - Clinic.hour_ms else w - 2 * Clinic.hour_ms.
End Berlin.

(** ** Ordering and paging *)

Section Ordering.
Variable key : Appointment.t -> Z.

Lemma insert_by_Permutation a l : Permutation (insert_by key a l) (a :: l).
Proof.
  induction l as [|b l IH]; simpl; [reflexivity|].
  destruct (key a <=? key b); [reflexivity|].
  rewrite IH. apply perm_swap.
Qed.

Lemma sort_by_Permutation l : Permutation (sort_by key l) l.
Proof.
  induction l as [|a l IH]; simpl; [constructor|].
  rewrite insert_by_Permutation. now constructor.
Qed.

Lemma insert_by_sorted a l :
  StronglySorted (fun x y => key x <= key y) l ->
  StronglySorted (fun x y => key x <= key y) (insert_by key a l).
Proof.
  induction 1 as [|b l Hs IH Hb]; simpl.
  - repeat constructor.
  - destruct (key a <=? key b) eqn:E.
    + apply Z.leb_le in E. constructor.
      * now constructor.
      * constructor; [exact E|].
        eapply Forall_impl; [exact Hb|]. simpl. intros; lia.
    + apply Z.leb_gt in E. constructor; [exact IH|].
      eapply Permutation_Forall.
      * symmetry. apply insert_by_Permutation.
      * constructor; [lia | exact Hb].
Qed.

Lemma sort_by_sorted l :
  StronglySorted (fun x y => key x <= key y) (sort_by key l).
Proof.
  induction l as [|a l IH]; simpl; [constructor|].
  now apply insert_by_sorted.
Qed.

Lemma sort_by_In a l : In a (sort_by key l) <-> In a l.
Proof.
  split; apply Permutation_in;
    [apply sort_by_Permutation | symmetry; apply sort_by_Permutation].
Qed.
End Ordering.

Lemma firstn_incl {A} n (l : list A) x : In x (firstn n l) -> In x l.
Proof.
  revert l. induction n as [|n IH]; intros [|y l]; simpl; try tauto.
  intros [->|H]; [now left | right; now apply IH].
Qed.

Lemma skipn_incl {A} n (l : list A) x : In x (skipn n l) -> In x l.
Proof.
  revert l. induction n as [|n IH]; intros [|y l]; simpl; try tauto.
  intros H. right. now apply IH.
Qed.

Lemma StronglySorted_skipn {A} (R : A -> A -> Prop) n l :
  StronglySorted R l -> StronglySorted R (skipn n l).
Proof.
  revert l. induction n as [|n IH]; intros l Hl; [exact Hl|].
  destruct l as [|x l]; [constructor|].
  simpl. apply IH. now inversion Hl.
Qed.

Lemma StronglySorted_firstn {A} (R : A -> A -> Prop) n l :
  StronglySorted R l -> StronglySorted R (firstn n l).
Proof.
  revert l. induction n as [|n IH]; intros l Hl; [constructor|].
  destruct l as [|x l]; [constructor|].
  simpl. inversion Hl as [|? ? Hs Hx]; subst. constructor.
  - now apply IH.
  - rewrite List.Forall_forall in *. intros y Hy. apply Hx.
    now apply firstn_incl in Hy.
Qed.

(** The page of the vocabulary is what [skip(offset * limit)] and
    [take(limit)] make of the rows. *)
Lemma paged_page pagination l :
  paged (Some (offset pagination * limit pagination)%nat)
    (Some (limit pagination)) l
  = page pagination l.
Proof. unfold paged, page. now destruct (limit pagination). Qed.

Lemma page_In pagination a l : In a (page pagination l) -> In a l.
Proof.
  unfold page. intros H.
  destruct (limit pagination =? 0)%nat;
    [|apply firstn_incl in H]; now apply skipn_incl in H.
Qed.

Lemma page_sorted {R : Appointment.t -> Appointment.t -> Prop} pagination l :
  StronglySorted R l -> StronglySorted R (page pagination l).
Proof.
  intros H. unfold page.
  destruct (limit pagination =? 0)%nat;
    [|apply StronglySorted_firstn]; now apply StronglySorted_skipn.
Qed.

(** ** Day boundaries *)

Lemma day_ms_pos : 0 < day_ms.
Proof. reflexivity. Qed.

Lemma startOfToday_eq srv : startOfToday srv = midnight srv (today_number srv).
Proof. reflexivity. Qed.

(** The wall clock at a midnight the platform handed out is on the day
    that was asked for. *)
Lemma midnight_day srv k : localOf srv (midnight srv k) / day_ms = k.
Proof.
  unfold midnight. rewrite same_day.
  apply Z.div_mul. pose proof day_ms_pos. lia.
Qed.

(** [moment(startOfDay).add(n, 'days').startOf('day')] *)
Lemma nextDay_eq srv n :
  moment.toDate
    (moment.startOf_day srv
       (moment.add_days srv n (moment.of_date (startOfToday srv))))
  = midnight srv (today_number srv + n).
Proof.
  unfold moment.toDate, moment.startOf_day, moment.add_days, moment.of_date,
    moment.at_wall, moment.wall; cbn [moment.valueOf moment.isUTC].
  rewrite same_day, Z.div_add by (pose proof day_ms_pos; lia).
  now rewrite startOfToday_eq, midnight_day.
Qed.

(** [moment(startOfDay).subtract(n, 'days').endOf('day')] *)
Lemma prevDay_eq srv n :
  moment.toDate
    (moment.endOf_day srv
       (moment.subtract_days srv n (moment.of_date (startOfToday srv))))
  = midnight srv (today_number srv - n + 1) - 1.
Proof.
  unfold moment.toDate, moment.endOf_day, moment.subtract_days,
    moment.of_date, moment.at_wall, moment.wall;
    cbn [moment.valueOf moment.isUTC].
  rewrite same_day.
  replace (localOf srv (startOfToday srv) - n * day_ms)
    with (localOf srv (startOfToday srv) + (- n) * day_ms) by ring.
  rewrite Z.div_add by (pose proof day_ms_pos; lia).
  rewrite startOfToday_eq, midnight_day.
  reflexivity.
Qed.

Lemma endOfToday_eq srv :
  endOfToday srv = midnight srv (today_number srv + 1) - 1.
Proof. reflexivity. Qed.

(** With one offset all year every day has its 86400000 milliseconds. *)
Lemma fixed_zone_midnight now offset k n :
  midnight (fixed_zone now offset) (k + n)
  = midnight (fixed_zone now offset) k + n * day_ms.
Proof. unfold midnight, fixed_zone; cbn [instantOf]. ring. Qed.

Lemma fixed_zone_startOfToday now offset :
  startOfToday (fixed_zone now offset)
  = (now + offset) / day_ms * day_ms - offset.
Proof. reflexivity. Qed.

(** ** Running a statement *)

Lemma holds_Cmp ps c op p v a :
  ps !! p = Some v ->
  holds ps (Cmp c op p) a = Some (compare_with op (column c a) v).
Proof. intros H. cbn [holds]. now rewrite H. Qed.

Lemma holds_And ps l r x y a :
  holds ps l a = Some x -> holds ps r a = Some y ->
  holds ps (And l r) a = Some (x && y).
Proof. intros Hl Hr. cbn [holds]. now rewrite Hl, Hr. Qed.

Lemma holds_Or ps l r x y a :
  holds ps l a = Some x -> holds ps r a = Some y ->
  holds ps (Or l r) a = Some (x || y).
Proof. intros Hl Hr. cbn [holds]. now rewrite Hl, Hr. Qed.

Lemma select_filter ps ws p rows :
  (forall a, where_holds ps ws a = Some (p a)) ->
  select ps ws rows = Some (List.filter p rows).
Proof.
  intros H. induction rows as [|a rows IH]; [reflexivity|].
  cbn [select List.filter]. rewrite H, IH. simpl. now destruct (p a).
Qed.

Lemma getMany_run qb rows p :
  (forall a, where_holds (parameters qb) (wheres qb) a = Some (p a)) ->
  getMany qb rows
  = Resolved (paged (skip_ qb) (take_ qb)
                (ordered (orderBys qb) (List.filter p rows))).
Proof. intros H. unfold getMany. now rewrite (select_filter _ _ p). Qed.

Lemma filter_ext_bool {A} (p q : A -> bool) l :
  (forall a, p a = q a) -> List.filter p l = List.filter q l.
Proof.
  intros H. induction l as [|a l IH]; [reflexivity|].
  simpl. now rewrite H, IH.
Qed.

(** Reads the conditions of the clause in the goal under its parameters. *)
Ltac read_conditions :=
  repeat match goal with
  | |- context [holds ?ps ?c ?a] =>
      let H := fresh "Hc" in
      eassert (holds ps c a = Some _) as H
        by (repeat first [ apply holds_Cmp; reflexivity
                         | eapply holds_And
                         | eapply holds_Or ]);
      rewrite H; clear H
  end.

(** Resolves the statement in the goal to the rows its clause keeps. *)
Ltac run_statement :=
  cbn [negb mbind Promise_bind where_undefined];
  erewrite getMany_run;
  [ cbn [skip_ take_ orderBys take skip orderBy andWhere orWhere where_
         setParameters set_wheres createQueryBuilder];
    rewrite ?paged_page; reflexivity
  | intros ?a;
    cbn [wheres parameters take skip orderBy andWhere orWhere where_
         setParameters set_wheres createQueryBuilder app where_holds where_rest];
    read_conditions;
    cbn [mbind option_bind where_rest compare_with column] ].

Lemma visible_local d all id a :
  Doctor.role d = Role.LocalDoctor ->
  visible d all id a = all || (Appointment.localDoctorId a =? id).
Proof. intros H. unfold visible. now rewrite H. Qed.

Lemma visible_remote d all id a :
  Doctor.role d = Role.RemoteDoctor ->
  visible d all id a = (Appointment.remoteDoctorId a =? id).
Proof. intros H. unfold visible. now rewrite H. Qed.

(** *** [getAllAppointments] where [where(undefined)] leaves the clause
    empty *)

Lemma getAllAppointments_today_run srv db id pagination d :
  Repository.findOne Doctor.id id (doctors db) = Some d ->
  recognized (Doctor.role d) ->
  filter pagination = Filter.today ->
  getAllAppointments legacy srv db id pagination
  = Resolved (page pagination
      (sort_by Appointment.startTime
        (List.filter (visible d (showAll pagination) id) (appointments db)))).
Proof.
  intros Hd Hr Hf. unfold getAllAppointments. rewrite Hd, Hf.
  destruct Hr as [Hr|Hr]; rewrite Hr;
    cbn [String.eqb Ascii.eqb Bool.eqb Role.LocalDoctor Role.RemoteDoctor
         Filter.today];
    [destruct (showAll pagination)|]; run_statement.
  - now rewrite visible_local.
  - now rewrite visible_local.
  - now rewrite visible_remote.
Qed.

Lemma getAllAppointments_future_run srv db id pagination d :
  Repository.findOne Doctor.id id (doctors db) = Some d ->
  recognized (Doctor.role d) ->
  filter pagination = Filter.future ->
  getAllAppointments legacy srv db id pagination
  = Resolved (page pagination
      (sort_by Appointment.startTime
        (List.filter
           (fun a => visible d (showAll pagination) id a
                     && within_future srv pagination a)
           (appointments db)))).
Proof.
  intros Hd Hr Hf. unfold getAllAppointments. rewrite Hd, Hf.
  destruct Hr as [Hr|Hr]; rewrite Hr;
    cbn [String.eqb Ascii.eqb Bool.eqb Role.LocalDoctor Role.RemoteDoctor
         Filter.today Filter.future];
    [destruct (showAll pagination)|]; run_statement;
    change (moment.toDate (moment.startOf_day srv (moment.now srv)))
      with (startOfToday srv);
    rewrite nextDay_eq, Z.geb_leb; unfold within_future;
    rewrite Z.add_assoc.
  - now rewrite visible_local.
  - now rewrite visible_local.
  - now rewrite visible_remote.
Qed.

Lemma getAllAppointments_past_run srv db id pagination d :
  Repository.findOne Doctor.id id (doctors db) = Some d ->
  recognized (Doctor.role d) ->
  filter pagination = Filter.past ->
  getAllAppointments legacy srv db id pagination
  = Resolved (page pagination
      (sort_by Appointment.endTime
        (List.filter
           (fun a => visible d (showAll pagination) id a
                     && within_past srv pagination a)
           (appointments db)))).
Proof.
  intros Hd Hr Hf. unfold getAllAppointments. rewrite Hd, Hf.
  destruct Hr as [Hr|Hr]; rewrite Hr;
    cbn [String.eqb Ascii.eqb Bool.eqb Role.LocalDoctor Role.RemoteDoctor
         Filter.today Filter.future Filter.past];
    [destruct (showAll pagination)|]; run_statement;
    change (moment.toDate (moment.startOf_day srv (moment.now srv)))
      with (startOfToday srv);
    rewrite prevDay_eq, Z.geb_leb; unfold within_past;
    replace (today_number srv - (Z.of_nat (offset pagination) + 1) + 1)
      with (today_number srv - Z.of_nat (offset pagination)) by ring.
  - now rewrite visible_local.
  - now rewrite visible_local.
  - now rewrite visible_remote.
Qed.

Lemma getAllAppointments_unknown_doctor orm srv db id pagination :
  Repository.findOne Doctor.id id (doctors db) = None ->
  getAllAppointments orm srv db id pagination
  = Rejected (NotFoundException "Doctor not found").
Proof. intros Hd. unfold getAllAppointments. now rewrite Hd. Qed.

Lemma getAllAppointments_invalid_role srv db id pagination d :
  Repository.findOne Doctor.id id (doctors db) = Some d ->
  ~ recognized (Doctor.role d) ->
  getAllAppointments legacy srv db id pagination
  = Rejected (BadRequestException "Invalid role").
Proof.
  intros Hd Hr. unfold getAllAppointments. rewrite Hd.
  destruct (String.eqb_spec (Doctor.role d) Role.LocalDoctor) as [E|_];
    [elim Hr; now left|].
  destruct (String.eqb_spec (Doctor.role d) Role.RemoteDoctor) as [E|_];
    [elim Hr; now right|].
  reflexivity.
Qed.

Lemma getAllAppointments_invalid_filter srv db id pagination d :
  Repository.findOne Doctor.id id (doctors db) = Some d ->
  recognized (Doctor.role d) ->
  ~ known_filter (filter pagination) ->
  getAllAppointments legacy srv db id pagination
  = Rejected (BadRequestException ("Invalid filter: " +:+ filter pagination)).
Proof.
  intros Hd Hr Hf. unfold getAllAppointments. rewrite Hd.
  destruct (String.eqb_spec (filter pagination) Filter.today) as [E|_];
    [elim Hf; now left|].
  destruct (String.eqb_spec (filter pagination) Filter.future) as [E|_];
    [elim Hf; right; now left|].
  destruct (String.eqb_spec (filter pagination) Filter.past) as [E|_];
    [elim Hf; right; now right|].
  destruct Hr as [Hr|Hr]; rewrite Hr;
    cbn [String.eqb Ascii.eqb Bool.eqb Role.LocalDoctor Role.RemoteDoctor];
    [destruct (showAll pagination)|]; reflexivity.
Qed.

(** With a filter it knows, the call resolves with the asked page of the
    rows the doctor may see inside the time filter, in the filter's
    order. *)
Lemma getAllAppointments_resolves srv db id pagination d :
  Repository.findOne Doctor.id id (doctors db) = Some d ->
  recognized (Doctor.role d) ->
  known_filter (filter pagination) ->
  getAllAppointments legacy srv db id pagination
  = Resolved
      (page pagination
         (sort_by (column (sort_column pagination))
            (List.filter
               (fun a => visible d (showAll pagination) id a
                         && time_window srv pagination a)
               (appointments db)))).
Proof.
  intros Hd Hr [E|[E|E]]; unfold time_window, sort_column.
  - rewrite (getAllAppointments_today_run _ _ _ _ _ Hd Hr E), E.
    cbn [String.eqb Ascii.eqb Bool.eqb Filter.today Filter.past].
    do 3 f_equal. apply filter_ext_bool. intros a. now rewrite andb_true_r.
  - rewrite (getAllAppointments_future_run _ _ _ _ _ Hd Hr E), E.
    reflexivity.
  - rewrite (getAllAppointments_past_run _ _ _ _ _ Hd Hr E), E.
    reflexivity.
Qed.

Lemma known_filter_dec f : known_filter f \/ ~ known_filter f.
Proof.
  unfold known_filter.
  destruct (String.eqb_spec f Filter.today);
    destruct (String.eqb_spec f Filter.future);
    destruct (String.eqb_spec f Filter.past); tauto.
Qed.

Lemma recognized_dec r : recognized r \/ ~ recognized r.
Proof.
  unfold recognized.
  destruct (String.eqb_spec r Role.LocalDoctor);
    destruct (String.eqb_spec r Role.RemoteDoctor); tauto.
Qed.

(** *** [getAllAppointments] where [where(undefined)] throws *)

(** Once the doctor is found the call ends at line 157, before the role
    and the filter are looked at. *)
Lemma getAllAppointments_current_throws srv db id pagination d :
  Repository.findOne Doctor.id id (doctors db) = Some d ->
  getAllAppointments current srv db id pagination = Rejected undefined_clause.
Proof. intros Hd. unfold getAllAppointments. now rewrite Hd. Qed.

(** *** [getAllAppointments] on either library *)

(** A call that resolves found the doctor, with a role and a filter the
    service knows, on a library that lets [where(undefined)] pass. *)
Lemma getAllAppointments_resolved_inv orm srv db id pagination l :
  getAllAppointments orm srv db id pagination = Resolved l ->
  orm = legacy
  /\ exists d, Repository.findOne Doctor.id id (doctors db) = Some d
               /\ recognized (Doctor.role d)
               /\ known_filter (filter pagination).
Proof.
  intros Hl.
  destruct (Repository.findOne Doctor.id id (doctors db)) as [d|] eqn:Hd;
    [|rewrite (getAllAppointments_unknown_doctor _ _ _ _ _ Hd) in Hl;
      discriminate].
  destruct orm;
    [|rewrite (getAllAppointments_current_throws _ _ _ _ _ Hd) in Hl;
      discriminate].
  split; [reflexivity|]. exists d. split; [reflexivity|].
  destruct (recognized_dec (Doctor.role d)) as [Hr|Hr];
    [|rewrite (getAllAppointments_invalid_role _ _ _ _ _ Hd Hr) in Hl;
      discriminate].
  split; [exact Hr|].
  destruct (known_filter_dec (filter pagination)) as [Hf|Hf]; [exact Hf|].
  rewrite (getAllAppointments_invalid_filter _ _ _ _ _ Hd Hr Hf) in Hl.
  discriminate.
Qed.

(** Whatever the call resolves with is the asked page of the rows the
    doctor may see inside the time filter, in the filter's order. *)
Lemma getAllAppointments_run orm srv db id pagination d l :
  Repository.findOne Doctor.id id (doctors db) = Some d ->
  getAllAppointments orm srv db id pagination = Resolved l ->
  l = page pagination
        (sort_by (column (sort_column pagination))
           (List.filter
              (fun a => visible d (showAll pagination) id a
                        && time_window srv pagination a)
              (appointments db))).
Proof.
  intros Hd Hl.
  destruct (getAllAppointments_resolved_inv _ _ _ _ _ _ Hl)
    as (-> & d' & Hd' & Hr & Hf).
  assert (d' = d) as -> by congruence.
  rewrite (getAllAppointments_resolves _ _ _ _ _ Hd Hr Hf) in Hl.
  now injection Hl as <-.
Qed.

Lemma within_future_spec srv pagination a :
  within_future srv pagination a = true <->
  startOfToday srv <= Appointment.startTime a
    < midnight srv (today_number srv + Z.of_nat (offset pagination) + 1).
Proof. unfold within_future. rewrite andb_true_iff, Z.leb_le, Z.ltb_lt. tauto. Qed.

Lemma within_past_spec srv pagination a :
  within_past srv pagination a = true <->
  midnight srv (today_number srv - Z.of_nat (offset pagination)) - 1
    <= Appointment.endTime a < startOfToday srv.
Proof. unfold within_past. rewrite andb_true_iff, Z.leb_le, Z.ltb_lt. tauto. Qed.

Lemma filter_Forall {A} (p : A -> bool) (P : A -> Prop) l :
  (forall a, p a = true -> P a) -> List.Forall P (List.filter p l).
Proof.
  intros H. apply List.Forall_forall. intros a Ha.
  apply filter_In in Ha. now apply H.
Qed.

Lemma page_Forall (P : Appointment.t -> Prop) pagination l :
  List.Forall P l -> List.Forall P (page pagination l).
Proof.
  rewrite !List.Forall_forall. intros H a Ha. apply H.
  now apply page_In in Ha.
Qed.

Lemma sort_by_Forall (P : Appointment.t -> Prop) key l :
  List.Forall P l -> List.Forall P (sort_by key l).
Proof.
  rewrite !List.Forall_forall. intros H a Ha. apply H.
  now apply sort_by_In in Ha.
Qed.

(** A zone with a change of offset is a server too. *)
Lemma Berlin_same_day w :
  Berlin.local (Berlin.instant w) / day_ms = w / day_ms.
Proof.
  unfold Berlin.local, Berlin.instant.
  destruct (Z.ltb_spec w (Berlin.change + 2 * Clinic.hour_ms)) as [Hw|Hw].
  - destruct (Z.ltb_spec (w - Clinic.hour_ms) Berlin.change) as [Hi|Hi].
    + f_equal. ring.
    + unfold Berlin.change, Clinic.at_, Clinic.hour_ms, day_ms in *.
      Z.div_mod_to_equations. lia.
  - destruct (Z.ltb_spec (w - 2 * Clinic.hour_ms) Berlin.change) as [Hi|Hi].
    + lia.
    + f_equal. ring.
Qed.

Definition berlin (now : Z) : Server :=
  {| clock := now; localOf := Berlin.local; instantOf := Berlin.instant;
     same_day := Berlin_same_day |}.

(** At noon of 25 March the day after tomorrow starts 47 hours after
    today did: the day of the change has 23 hours. *)
Lemma berlin_short_day :
  midnight (berlin (Clinic.at_ 19441 11))
    (today_number (berlin (Clinic.at_ 19441 11)) + 2)
  = startOfToday (berlin (Clinic.at_ 19441 11)) + 2 * day_ms - Clinic.hour_ms.
Proof. vm_compute. reflexivity. Qed.

(** ** Listing: the time filters *)

(** C1, at a failing input. Doctor 1 is a local doctor with an appointment
    a week ago, two today and one next week; it is noon. Asked for today's
    appointments, first page of ten, [getAllAppointments] does not hand
    back the two of today. The today branch assigns its time condition to
    [whereClause] after the only call that reads it, [where(whereClause,
    ...)], was made with [undefined]. Where the library refuses that call
    the request ends there in a [TypeError]; where the library lets it
    pass no time condition reaches the statement and all four
    appointments come back, the first starting before the start of today
    and the last ending after the end of today. *)
Theorem getAllAppointments_today_returns_other_days :
  getAllAppointments current Clinic.noon Clinic.db 1
    (Clinic.request Filter.today 0 10 false)
  = Rejected (TypeError "Cannot convert undefined or null to object")
  /\ getAllAppointments legacy Clinic.noon Clinic.db 1
       (Clinic.request Filter.today 0 10 false)
     = Resolved [Clinic.lastweek; Clinic.checkup; Clinic.followup;
                 Clinic.nextweek]
  /\ Appointment.startTime Clinic.lastweek < startOfToday Clinic.noon
  /\ endOfToday Clinic.noon < Appointment.endTime Clinic.nextweek
  /\ (forall orm,
        getAllAppointments orm Clinic.noon Clinic.db 1
          (Clinic.request Filter.today 0 10 false)
        <> Resolved [Clinic.checkup; Clinic.followup]).
Proof.
  split; [reflexivity|]. split; [vm_compute; reflexivity|].
  split; [vm_compute; reflexivity|]. split; [vm_compute; reflexivity|].
  intros [|]; vm_compute; discriminate.
Qed.

(** C2 as stated fails. Doctor 2 is the remote doctor of two appointments
    today and two tomorrow. With filter future, offset 1 and limit 1 the
    specification asks for the second appointment of tomorrow: the bucket
    is tomorrow, one row is skipped, one taken. Where the call resolves it
    resolves with the second appointment of today, which starts before
    start-of-today plus one day; where the library refuses
    [where(undefined)] it is rejected. On neither library does it resolve
    with the page that was specified. *)
Lemma getAllAppointments_future_offset_counterexample :
  future_page_as_specified Clinic.noon
    (Clinic.request Filter.future 1 1 false)
    (Doctor.make 2 Role.RemoteDoctor) 2 (appointments Week.db)
  = [Week.late]
  /\ getAllAppointments legacy Clinic.noon Week.db 2
       (Clinic.request Filter.future 1 1 false)
     = Resolved [Clinic.followup]
  /\ ~ (startOfToday Clinic.noon + 1 * day_ms
        <= Appointment.startTime Clinic.followup)
  /\ getAllAppointments current Clinic.noon Week.db 2
       (Clinic.request Filter.future 1 1 false)
     = Rejected (TypeError "Cannot convert undefined or null to object")
  /\ (forall orm,
        getAllAppointments orm Clinic.noon Week.db 2
          (Clinic.request Filter.future 1 1 false)
        <> Resolved [Week.late]).
Proof.
  split; [vm_compute; reflexivity|]. split; [vm_compute; reflexivity|].
  split; [vm_compute; intros H; now apply H|]. split; [reflexivity|].
  intros [|]; vm_compute; discriminate.
Qed.

(** C2, amended. For a doctor with a recognized role and filter future
    with offset N, whatever [getAllAppointments] resolves with is the page
    ([offset * limit] rows skipped, then [limit] rows, or all of them when
    [limit] is 0) of a bucket that is ascending in startTime and holds
    exactly the appointments the doctor may see whose startTime is at or
    after start-of-today and strictly before midnight of the day N + 1
    days after today. The bucket starts today for every N. *)
Theorem getAllAppointments_future_bucket orm srv db id pagination d l :
  Repository.findOne Doctor.id id (doctors db) = Some d ->
  recognized (Doctor.role d) ->
  filter pagination = Filter.future ->
  getAllAppointments orm srv db id pagination = Resolved l ->
  exists bucket,
    l = page pagination bucket
    /\ ascending col_startTime bucket
    /\ Permutation bucket
         (List.filter (fun a => visible d (showAll pagination) id a
                                && within_future srv pagination a)
            (appointments db))
    /\ (forall a, In a bucket <->
          In a (appointments db)
          /\ visible d (showAll pagination) id a = true
          /\ startOfToday srv <= Appointment.startTime a
               < midnight srv
                   (today_number srv + Z.of_nat (offset pagination) + 1)).
Proof.
  intros Hd Hr Hf Hl.
  destruct (getAllAppointments_resolved_inv _ _ _ _ _ _ Hl) as (-> & _).
  rewrite (getAllAppointments_future_run _ _ _ _ _ Hd Hr Hf) in Hl.
  injection Hl as <-.
  eexists. split; [reflexivity|]. split; [apply sort_by_sorted|].
  split; [apply sort_by_Permutation|].
  intros a. rewrite sort_by_In, filter_In, andb_true_iff, within_future_spec.
  tauto.
Qed.

(** The remote doctor of the clinic, at noon, offset 1, where the call
    resolves. *)
Lemma getAllAppointments_future_bucket_witness :
  Repository.findOne Doctor.id 2 (doctors Clinic.db)
    = Some (Doctor.make 2 Role.RemoteDoctor)
  /\ recognized (Doctor.role (Doctor.make 2 Role.RemoteDoctor))
  /\ filter (Clinic.request Filter.future 1 1 false) = Filter.future
  /\ getAllAppointments legacy Clinic.noon Clinic.db 2
       (Clinic.request Filter.future 1 1 false)
     = Resolved [Clinic.followup]
  /\ exists bucket,
      [Clinic.followup] = page (Clinic.request Filter.future 1 1 false) bucket
      /\ ascending col_startTime bucket
      /\ Permutation bucket
           (List.filter
              (fun a => visible (Doctor.make 2 Role.RemoteDoctor) false 2 a
                        && within_future Clinic.noon
                             (Clinic.request Filter.future 1 1 false) a)
              (appointments Clinic.db))
      /\ (forall a, In a bucket <->
            In a (appointments Clinic.db)
            /\ visible (Doctor.make 2 Role.RemoteDoctor) false 2 a = true
            /\ startOfToday Clinic.noon <= Appointment.startTime a
                 < midnight Clinic.noon
                     (today_number Clinic.noon + Z.of_nat 1 + 1)).
Proof.
  split; [reflexivity|]. split; [right; reflexivity|]. split; [reflexivity|].
  split; [vm_compute; reflexivity|].
  apply (getAllAppointments_future_bucket legacy Clinic.noon Clinic.db 2
           (Clinic.request Filter.future 1 1 false)
           (Doctor.make 2 Role.RemoteDoctor));
    [reflexivity | right; reflexivity | reflexivity | vm_compute; reflexivity].
Defined.

(** ** Listing: who sees what *)

(** Whatever the call resolves with, every row of it is one the doctor
    may see. *)
Lemma getAllAppointments_visible_only orm srv db id pagination d l :
  Repository.findOne Doctor.id id (doctors db) = Some d ->
  getAllAppointments orm srv db id pagination = Resolved l ->
  List.Forall (fun a => visible d (showAll pagination) id a = true) l.
Proof.
  intros Hd Hl. rewrite (getAllAppointments_run _ _ _ _ _ _ _ Hd Hl).
  apply page_Forall, sort_by_Forall, filter_Forall. intros a Ha.
  now apply andb_true_iff in Ha.
Qed.

(** C3, at a failing input. Doctor 1 is a local doctor with two
    appointments today, doctor 3 has a role that is neither local nor
    remote. Where the library refuses [where(undefined)] neither call
    reaches the role check of lines 179 to 193: both end at line 157 in a
    [TypeError], which is no invalid-request signal; the local doctor gets
    no listing and the other role no [BadRequestException]. Where the
    library lets the call pass the service does what the claim says: the
    local doctor gets their two appointments and the other role is
    rejected as invalid. The defect is the one of C1. *)
Theorem getAllAppointments_scope_unreached :
  getAllAppointments current Clinic.noon Clinic.db 1
    (Clinic.request Filter.future 0 10 false)
  = Rejected (TypeError "Cannot convert undefined or null to object")
  /\ getAllAppointments current Clinic.noon Clinic.db 3
       (Clinic.request Filter.future 0 10 false)
     = Rejected (TypeError "Cannot convert undefined or null to object")
  /\ signal (TypeError "Cannot convert undefined or null to object")
     <> InvalidRequest
  /\ getAllAppointments legacy Clinic.noon Clinic.db 1
       (Clinic.request Filter.future 0 10 false)
     = Resolved [Clinic.checkup; Clinic.followup]
  /\ getAllAppointments legacy Clinic.noon Clinic.db 3
       (Clinic.request Filter.future 0 10 false)
     = Rejected (BadRequestException "Invalid role").
Proof.
  split; [reflexivity|]. split; [reflexivity|]. split; [discriminate|].
  split; vm_compute; reflexivity.
Qed.

(** ** Listing: the failures *)

(** C8, at a failing input. An identifier no doctor has is rejected with
    [NotFoundException] on either library. For a doctor that exists, the
    role check and the default branch of the filter switch come after
    line 157: where the library refuses [where(undefined)], doctor 3
    (whose role is neither local nor remote) and doctor 1 asking for the
    filter "tomorrow" are both rejected with a [TypeError], an internal
    error and no invalid-request signal. Where the library lets the call
    pass they are rejected with [BadRequestException], as the claim says.
    The defect is the one of C1. *)
Theorem getAllAppointments_failures :
  (forall orm,
     getAllAppointments orm Clinic.noon Clinic.db 4
       (Clinic.request Filter.today 0 10 false)
     = Rejected (NotFoundException "Doctor not found"))
  /\ getAllAppointments current Clinic.noon Clinic.db 3
       (Clinic.request Filter.today 0 10 false)
     = Rejected (TypeError "Cannot convert undefined or null to object")
  /\ getAllAppointments current Clinic.noon Clinic.db 1
       (Clinic.request "tomorrow" 0 10 false)
     = Rejected (TypeError "Cannot convert undefined or null to object")
  /\ signal (TypeError "Cannot convert undefined or null to object")
     = InternalError
  /\ getAllAppointments legacy Clinic.noon Clinic.db 3
       (Clinic.request Filter.today 0 10 false)
     = Rejected (BadRequestException "Invalid role")
  /\ getAllAppointments legacy Clinic.noon Clinic.db 1
       (Clinic.request "tomorrow" 0 10 false)
     = Rejected (BadRequestException "Invalid filter: tomorrow").
Proof.
  split; [intros orm; reflexivity|]. split; [reflexivity|].
  split; [reflexivity|]. split; [reflexivity|].
  split; vm_compute; reflexivity.
Qed.
(** ** The active appointment *)

Lemma head_filter_Some {A} (p : A -> bool) l a :
  head (List.filter p l) = Some a -> In a l /\ p a = true.
Proof.
  intros H.
  assert (Ha : In a (List.filter p l))
    by (destruct (List.filter p l); [discriminate | injection H as ->; now left]).
  now apply filter_In in Ha.
Qed.

Lemma head_filter_None {A} (p : A -> bool) l :
  head (List.filter p l) = None -> forall a, In a l -> p a = false.
Proof.
  intros H a Ha. destruct (p a) eqn:E; [|reflexivity].
  assert (Hin : In a (List.filter p l)) by (apply filter_In; now split).
  destruct (List.filter p l); [destruct Hin | discriminate].
Qed.

Lemma active_spec now id a :
  active now id a = true <->
  involves id a /\ Appointment.startTime a < now < Appointment.endTime a.
Proof.
  unfold active, involves.
  rewrite !andb_true_iff, orb_true_iff, Z.ltb_lt, Z.gtb_ltb, Z.ltb_lt, !Z.eqb_eq.
  tauto.
Qed.

Lemma getActiveAppointmentByDoctorId_run srv db id :
  getActiveAppointmentByDoctorId srv db id
  = Resolved (head (List.filter (active (clock srv) id) (appointments db))).
Proof.
  unfold getActiveAppointmentByDoctorId, getOne.
  erewrite getMany_run.
  - reflexivity.
  - intros a.
    cbn [wheres parameters andWhere where_ setParameters set_wheres
         createQueryBuilder app where_holds where_rest].
    read_conditions.
    reflexivity.
Qed.

(** C5 as stated fails at the opening instant. Doctor 1 has an appointment
    from 09:00 to 10:00 and it is 09:00 sharp: now lies in [start, end),
    yet [getActiveAppointmentByDoctorId] resolves with nothing. *)
Lemma getActiveAppointmentByDoctorId_start_counterexample :
  (In Clinic.checkup (appointments Clinic.db)
   /\ involves 1 Clinic.checkup
   /\ Appointment.startTime Clinic.checkup <= clock Clinic.nine
        < Appointment.endTime Clinic.checkup)
  /\ getActiveAppointmentByDoctorId Clinic.nine Clinic.db 1 = Resolved None.
Proof.
  split; [|vm_compute; reflexivity].
  split; [now left|]. split; [now left|].
  split; vm_compute; [discriminate | reflexivity].
Qed.

(** C5, amended. [getActiveAppointmentByDoctorId] always resolves, with one
    appointment or with nothing. It resolves with an appointment if and
    only if some stored appointment involving the doctor, on either side,
    has start < now < end, both strictly; and the appointment it resolves
    with is such a one. *)
Theorem getActiveAppointmentByDoctorId_spec srv db id :
  exists o : option Appointment.t,
    getActiveAppointmentByDoctorId srv db id = Resolved o
    /\ (forall a, o = Some a ->
          In a (appointments db) /\ involves id a
          /\ Appointment.startTime a < clock srv < Appointment.endTime a)
    /\ (o <> None <->
        exists a, In a (appointments db) /\ involves id a
                  /\ Appointment.startTime a < clock srv < Appointment.endTime a).
Proof.
  rewrite getActiveAppointmentByDoctorId_run.
  eexists. split; [reflexivity|].
  assert (Hsome : forall a,
    head (List.filter (active (clock srv) id) (appointments db)) = Some a ->
    In a (appointments db) /\ involves id a
    /\ Appointment.startTime a < clock srv < Appointment.endTime a).
  { intros a Ha. apply head_filter_Some in Ha as [Hin Hp].
    apply active_spec in Hp. tauto. }
  split; [exact Hsome|]. split.
  - intros Hne.
    destruct (head (List.filter (active (clock srv) id) (appointments db)))
      as [a|] eqn:E; [|now elim Hne].
    exists a. now apply Hsome.
  - intros (a & Hin & Hinv & Hnow) Hnone.
    pose proof (head_filter_None _ _ Hnone a Hin) as Hp.
    assert (Ht : active (clock srv) id a = true) by (apply active_spec; tauto).
    congruence.
Qed.

(** ** Day boundaries and the server's zone *)

(** On a server whose zone is UTC the two calendars agree. *)
Lemma startOfToday_on_utc now :
  startOfToday (fixed_zone now 0) = startOfTodayUTC (fixed_zone now 0).
Proof.
  rewrite fixed_zone_startOfToday.
  unfold startOfTodayUTC, moment.toDate, moment.startOf_day, moment.at_wall,
    moment.wall, moment.utc, moment.now.
  cbn [moment.valueOf moment.isUTC clock fixed_zone].
  now rewrite Z.add_0_r, Z.sub_0_r.
Qed.


(** ** Listing by doctor *)

Lemma getAllAppointmentsByDoctorId_run db id :
  getAllAppointmentsByDoctorId db id
  = let l := List.filter
               (fun a => (Appointment.localDoctorId a =? id)
                         || (Appointment.remoteDoctorId a =? id))
               (appointments db) in
    if (length l =? 0)%nat
    then Rejected (UnauthorizedException "Appointments no found!")
    else Resolved l.
Proof.
  unfold getAllAppointmentsByDoctorId.
  erewrite getMany_run.
  - reflexivity.
  - intros a.
    cbn [wheres parameters orWhere where_ setParameters set_wheres
         createQueryBuilder app where_holds where_rest].
    read_conditions.
    reflexivity.
Qed.

(** A doctor on no appointment at all is turned away with
    [UnauthorizedException]. *)
Lemma getAllAppointmentsByDoctorId_none db id :
  (forall a, In a (appointments db) -> ~ involves id a) ->
  getAllAppointmentsByDoctorId db id
  = Rejected (UnauthorizedException "Appointments no found!").
Proof.
  intros H. rewrite getAllAppointmentsByDoctorId_run. cbv zeta.
  replace (List.filter _ (appointments db)) with (@nil Appointment.t);
    [reflexivity|].
  symmetry. induction (appointments db) as [|a l IH]; [reflexivity|].
  cbn [List.filter].
  destruct ((Appointment.localDoctorId a =? id)
            || (Appointment.remoteDoctorId a =? id)) eqn:E.
  - exfalso. apply (H a); [now left|].
    apply orb_true_iff in E. rewrite !Z.eqb_eq in E. exact E.
  - apply IH. intros b Hb. apply H. now right.
Qed.

(** C7, at a failing input. Doctor 9 is on none of the clinic's
    appointments. [getAllAppointmentsByDoctorId] does not resolve with an
    empty list, it is rejected; but the exception is
    [UnauthorizedException], with the message "Appointments no found!", and
    not [NotFoundException]. *)
Theorem getAllAppointmentsByDoctorId_empty_is_unauthorized :
  (forall a, In a (appointments Clinic.db) -> ~ involves 9 a)
  /\ exists e, getAllAppointmentsByDoctorId Clinic.db 9 = Rejected e
               /\ e = UnauthorizedException "Appointments no found!"
               /\ signal e = Unauthorized
               /\ signal e <> NotFound.
Proof.
  split.
  - intros a Ha [H|H]; repeat (destruct Ha as [<-|Ha]; [discriminate H|]);
      destruct Ha.
  - eexists. split; [vm_compute; reflexivity|].
    repeat split. discriminate.
Qed.

(** ** Commands: delete and update link *)

Lemma delete_absent id rows :
  (forall a, In a rows -> Appointment.id a <> id) ->
  Repository.delete id rows = rows.
Proof.
  intros H. unfold Repository.delete.
  induction rows as [|a rows IH]; [reflexivity|].
  cbn [List.filter].
  destruct (Z.eqb_spec (Appointment.id a) id) as [E|_].
  - elim (H a); [now left | exact E].
  - cbn [negb]. f_equal. apply IH. intros b Hb. apply H. now right.
Qed.

Lemma update_link_absent id link rows :
  (forall a, In a rows -> Appointment.id a <> id) ->
  Repository.update_link id link rows = rows.
Proof.
  intros H. unfold Repository.update_link.
  induction rows as [|a rows IH]; [reflexivity|].
  cbn [List.map].
  destruct (Z.eqb_spec (Appointment.id a) id) as [E|_].
  - elim (H a); [now left | exact E].
  - f_equal. apply IH. intros b Hb. apply H. now right.
Qed.

Lemma with_link_same_but_link link a :
  same_but_link a (Appointment.with_link link a)
  /\ Appointment.link (Appointment.with_link link a) = link.
Proof. unfold same_but_link. repeat split. Qed.

Lemma same_but_link_refl a : same_but_link a a.
Proof. unfold same_but_link. repeat split. Qed.

Lemma with_appointments_same db : with_appointments (appointments db) db = db.
Proof. now destruct db. Qed.

(** C9. [deleteAppointment] and [postLinkAppointment] resolve whatever the
    identifier. When no appointment has it, both leave the database as it
    was. In every case [postLinkAppointment] leaves the doctors alone and
    keeps the appointments in place, row for row: a row with the identifier
    gets the new link and keeps all its other fields, every other row is
    unchanged. *)
Theorem delete_and_postLink_frame db id link :
  fst (deleteAppointment db id) = Resolved tt
  /\ fst (postLinkAppointment db id link) = Resolved tt
  /\ ((forall a, In a (appointments db) -> Appointment.id a <> id) ->
      deleteAppointment db id = (Resolved tt, db)
      /\ postLinkAppointment db id link = (Resolved tt, db))
  /\ doctors (snd (postLinkAppointment db id link)) = doctors db
  /\ List.Forall2
       (fun a a' =>
          same_but_link a a'
          /\ (Appointment.id a = id -> Appointment.link a' = link)
          /\ (Appointment.id a <> id -> a' = a))
       (appointments db)
       (appointments (snd (postLinkAppointment db id link))).
Proof.
  split; [reflexivity|]. split; [reflexivity|]. split; [|split; [reflexivity|]].
  - intros H. unfold deleteAppointment, postLinkAppointment.
    rewrite (delete_absent _ _ H), (update_link_absent _ _ _ H).
    now rewrite with_appointments_same.
  - unfold postLinkAppointment, with_appointments, Repository.update_link.
    cbn [snd appointments].
    induction (appointments db) as [|a rows IH]; cbn [List.map]; constructor;
      [|exact IH].
    destruct (Z.eqb_spec (Appointment.id a) id) as [E|N].
    + split; [apply with_link_same_but_link|]. split; [reflexivity|].
      intros N. now elim N.
    + split; [apply same_but_link_refl|]. split; [|reflexivity].
      intros E. now elim N.
Qed.

(** No appointment of the clinic has identifier 9. *)
Lemma delete_and_postLink_frame_witness :
  (forall a, In a (appointments Clinic.db) -> Appointment.id a <> 9)
  /\ deleteAppointment Clinic.db 9 = (Resolved tt, Clinic.db)
  /\ postLinkAppointment Clinic.db 9 "https://meet.example/9"
     = (Resolved tt, Clinic.db).
Proof.
  assert (H : forall a, In a (appointments Clinic.db) -> Appointment.id a <> 9).
  { intros a Ha E.
    repeat (destruct Ha as [<-|Ha]; [discriminate E|]). destruct Ha. }
  split; [exact H|].
  apply (proj1 (proj2 (proj2
           (delete_and_postLink_frame Clinic.db 9 "https://meet.example/9")))).
  exact H.
Defined.

(** ** Commands: create *)

Section Create.
Variable save :
  Database -> DeepPartialAppointment -> (StoreError + Appointment.t) * Database.

Lemma createAppointment_saved db dto a db' :
  save db (draft dto) = (inr a, db') ->
  createAppointment save db dto = (Resolved a, db').
Proof.
  intros H. unfold createAppointment.
  change (save db _) with (save db (draft dto)). now rewrite H.
Qed.

Lemma createAppointment_failed db dto e db' :
  save db (draft dto) = (inl e, db') ->
  createAppointment save db dto
  = (Rejected (ConflictException conflict_message), db').
Proof.
  intros H. unfold createAppointment.
  change (save db _) with (save db (draft dto)). now rewrite H.
Qed.
End Create.

(** C10. Whatever error the store's [save] fails with, a uniqueness
    violation, a foreign-key violation, a lost connection or anything else,
    [createAppointment] is rejected with one and the same
    [ConflictException], whose message speaks of an existing time
    interval. *)
Theorem createAppointment_any_store_failure_is_conflict
  (save : Database -> DeepPartialAppointment
          -> (StoreError + Appointment.t) * Database)
  db dto (e : StoreError) db' :
  save db (draft dto) = (inl e, db') ->
  exists ex, fst (createAppointment save db dto) = Rejected ex
             /\ ex = ConflictException
                       "Error: An appointment with this time interval already exists."
             /\ signal ex = Conflict.
Proof.
  intros H. rewrite (createAppointment_failed _ _ _ _ _ H).
  eexists. split; [reflexivity|]. split; reflexivity.
Qed.

(** A booking while the store is down. *)
Lemma createAppointment_any_store_failure_is_conflict_witness :
  Clinic.save_down Clinic.db
    (draft (Clinic.booking (Clinic.at_ Clinic.today 11)
              (Clinic.at_ Clinic.today 12) 1 2))
  = (inl ConnectionLost, Clinic.db)
  /\ exists ex,
       fst (createAppointment Clinic.save_down Clinic.db
              (Clinic.booking (Clinic.at_ Clinic.today 11)
                 (Clinic.at_ Clinic.today 12) 1 2))
       = Rejected ex
       /\ ex = ConflictException
                 "Error: An appointment with this time interval already exists."
       /\ signal ex = Conflict.
Proof.
  split; [reflexivity|].
  apply (createAppointment_any_store_failure_is_conflict Clinic.save_down
           Clinic.db _ ConnectionLost Clinic.db).
  reflexivity.
Defined.

Lemma overlaps_spec dto a : overlaps (draft dto) a = true <-> clashes dto a.
Proof.
  unfold overlaps, clashes. cbn [draft p_localDoctorId p_remoteDoctorId].
  rewrite !andb_true_iff, orb_true_iff, !Z.eqb_eq, !Z.ltb_lt. tauto.
Qed.

(** C4, over the store as the data model describes it. When no stored
    appointment of either doctor overlaps the requested interval,
    [createAppointment] resolves with the stored row, whose startTime and
    endTime are the normalised inputs (the same instants); when some stored
    appointment of the same local or remote doctor overlaps it,
    [createAppointment] is rejected with [ConflictException] and the
    database is as it was. *)
Theorem createAppointment_exclusive db dto :
  ((forall a, In a (appointments db) -> ~ clashes dto a) ->
   exists saved db',
     createAppointment save_exclusive db dto = (Resolved saved, db')
     /\ Appointment.startTime saved
        = moment.toDate (moment.utc (moment.of_date (dto_startTime dto)))
     /\ Appointment.endTime saved
        = moment.toDate (moment.utc (moment.of_date (dto_endTime dto)))
     /\ Appointment.startTime saved = dto_startTime dto
     /\ Appointment.endTime saved = dto_endTime dto
     /\ In saved (appointments db'))
  /\ ((exists a, In a (appointments db) /\ clashes dto a) ->
      exists e, createAppointment save_exclusive db dto = (Rejected e, db)
                /\ signal e = Conflict).
Proof.
  split.
  - intros H.
    assert (E : existsb (overlaps (draft dto)) (appointments db) = false).
    { destruct (existsb _ _) eqn:E; [|reflexivity].
      apply existsb_exists in E as (a & Ha & Ho).
      apply overlaps_spec in Ho. now elim (H a). }
    eexists. eexists. split.
    + apply createAppointment_saved. unfold save_exclusive. rewrite E.
      reflexivity.
    + repeat split. cbn [with_appointments appointments].
      apply in_or_app. right. now left.
  - intros (a & Ha & Hc).
    assert (E : existsb (overlaps (draft dto)) (appointments db) = true).
    { apply existsb_exists. exists a. split; [exact Ha|].
      now apply overlaps_spec. }
    eexists. split.
    + apply (createAppointment_failed _ _ _ UniqueViolation).
      unfold save_exclusive. now rewrite E.
    + reflexivity.
Qed.

(** A free hour and a taken one for the local doctor of the clinic. *)
Lemma createAppointment_exclusive_witness :
  ((forall a, In a (appointments Clinic.db) ->
      ~ clashes (Clinic.booking (Clinic.at_ Clinic.today 10)
                   (Clinic.at_ Clinic.today 11) 1 2) a)
   /\ exists saved db',
        createAppointment save_exclusive Clinic.db
          (Clinic.booking (Clinic.at_ Clinic.today 10)
             (Clinic.at_ Clinic.today 11) 1 2)
        = (Resolved saved, db')
        /\ Appointment.startTime saved = Clinic.at_ Clinic.today 10
        /\ Appointment.endTime saved = Clinic.at_ Clinic.today 11)
  /\ ((exists a, In a (appointments Clinic.db)
                 /\ clashes (Clinic.booking (Clinic.at_ Clinic.today 9)
                               (Clinic.at_ Clinic.today 11) 1 5) a)
      /\ exists e,
           createAppointment save_exclusive Clinic.db
             (Clinic.booking (Clinic.at_ Clinic.today 9)
                (Clinic.at_ Clinic.today 11) 1 5)
           = (Rejected e, Clinic.db)
           /\ signal e = Conflict).
Proof.
  assert (Hfree : forall a, In a (appointments Clinic.db) ->
            ~ clashes (Clinic.booking (Clinic.at_ Clinic.today 10)
                         (Clinic.at_ Clinic.today 11) 1 2) a).
  { intros a Ha Hc. apply overlaps_spec in Hc.
    repeat (destruct Ha as [<-|Ha]; [vm_compute in Hc; discriminate Hc|]).
    destruct Ha. }
  assert (Hbusy : exists a, In a (appointments Clinic.db)
            /\ clashes (Clinic.booking (Clinic.at_ Clinic.today 9)
                          (Clinic.at_ Clinic.today 11) 1 5) a).
  { exists Clinic.checkup. split; [now left|].
    apply overlaps_spec. vm_compute. reflexivity. }
  split.
  - split; [exact Hfree|].
    destruct (proj1 (createAppointment_exclusive Clinic.db
                (Clinic.booking (Clinic.at_ Clinic.today 10)
                   (Clinic.at_ Clinic.today 11) 1 2)) Hfree)
      as (saved & db' & H1 & _ & _ & H2 & H3 & _).
    exists saved, db'. repeat split; assumption.
  - split; [exact Hbusy|].
    exact (proj2 (createAppointment_exclusive Clinic.db
                    (Clinic.booking (Clinic.at_ Clinic.today 9)
                       (Clinic.at_ Clinic.today 11) 1 5)) Hbusy).
Defined.


(** * Further properties of the service *)

(** ** Listing by patient and by doctor *)

Lemma by_doctor_spec id a : by_doctor id a = true <-> involves id a.
Proof.
  unfold by_doctor, involves. rewrite orb_true_iff, !Z.eqb_eq. tauto.
Qed.

Lemma getAppointmentsByPatientId_run db id :
  getAppointmentsByPatientId db id
  = Resolved (List.filter (fun a => Appointment.patientId a =? id)
                (appointments db)).
Proof.
  unfold getAppointmentsByPatientId.
  erewrite getMany_run.
  - reflexivity.
  - intros a.
    cbn [wheres parameters where_ setParameters set_wheres
         createQueryBuilder where_holds where_rest].
    read_conditions. reflexivity.
Qed.

Lemma filter_none {A} (p : A -> bool) l :
  (forall a, In a l -> p a = false) -> List.filter p l = [].
Proof.
  induction l as [|a l IH]; intros H; [reflexivity|].
  cbn [List.filter]. rewrite (H a) by now left.
  apply IH. intros b Hb. apply H. now right.
Qed.

(** X1. [getAppointmentsByPatientId] never rejects. It resolves with the
    appointments of the patient, and only those, in storage order; for a
    patient without appointments it resolves with the empty list. *)
Theorem getAppointmentsByPatientId_spec db id :
  exists l,
    getAppointmentsByPatientId db id = Resolved l
    /\ l = List.filter (fun a => Appointment.patientId a =? id) (appointments db)
    /\ (forall a, In a l <-> In a (appointments db) /\ Appointment.patientId a = id)
    /\ ((forall a, In a (appointments db) -> Appointment.patientId a <> id) ->
        l = []).
Proof.
  eexists. split; [apply getAppointmentsByPatientId_run|].
  split; [reflexivity|]. split.
  - intros a. rewrite filter_In, Z.eqb_eq. tauto.
  - intros H. apply filter_none. intros a Ha. apply Z.eqb_neq. now apply H.
Qed.

(** X2. For a doctor on at least one appointment, as local or as remote
    doctor, [getAllAppointmentsByDoctorId] resolves with a list that is not
    empty and holds the appointments the doctor is on, and only those, in
    storage order. *)
Theorem getAllAppointmentsByDoctorId_some db id :
  (exists a, In a (appointments db) /\ involves id a) ->
  exists l,
    getAllAppointmentsByDoctorId db id = Resolved l
    /\ l <> []
    /\ l = List.filter (by_doctor id) (appointments db)
    /\ (forall a, In a l <-> In a (appointments db) /\ involves id a).
Proof.
  intros (a & Ha & Hi).
  assert (Hin : In a (List.filter (by_doctor id) (appointments db)))
    by (apply filter_In; split; [exact Ha | now apply by_doctor_spec]).
  exists (List.filter (by_doctor id) (appointments db)).
  split; [|split; [|split]].
  - rewrite getAllAppointmentsByDoctorId_run. cbv zeta.
    change (fun a0 => (Appointment.localDoctorId a0 =? id)
                      || (Appointment.remoteDoctorId a0 =? id))
      with (by_doctor id).
    destruct (List.filter (by_doctor id) (appointments db));
      [destruct Hin | reflexivity].
  - intros E. rewrite E in Hin. destruct Hin.
  - reflexivity.
  - intros b. rewrite filter_In, by_doctor_spec. tauto.
Qed.

(** Doctor 2 is the remote doctor of every appointment of the clinic. *)
Lemma getAllAppointmentsByDoctorId_some_witness :
  (exists a, In a (appointments Clinic.db) /\ involves 2 a)
  /\ exists l,
       getAllAppointmentsByDoctorId Clinic.db 2 = Resolved l
       /\ l <> []
       /\ l = List.filter (by_doctor 2) (appointments Clinic.db)
       /\ (forall a, In a l <-> In a (appointments Clinic.db) /\ involves 2 a).
Proof.
  assert (H : exists a, In a (appointments Clinic.db) /\ involves 2 a)
    by (exists Clinic.checkup; split; [now left | now right]).
  split; [exact H|].
  exact (getAllAppointmentsByDoctorId_some Clinic.db 2 H).
Defined.

(** ** The appointments to come *)

Lemma upcoming_spec now id a :
  upcoming now id a = true <-> involves id a /\ now <= Appointment.endTime a.
Proof.
  unfold upcoming. rewrite andb_true_iff, Z.leb_le, by_doctor_spec. tauto.
Qed.

Lemma getFutureAppointmentsByDoctorId_run srv db id pagination :
  getFutureAppointmentsByDoctorId srv db id pagination
  = Resolved
      (paged (Some (offset pagination)) (Some (limit pagination))
         (sort_by Appointment.startTime
            (List.filter (upcoming (clock srv) id) (appointments db)))).
Proof.
  unfold getFutureAppointmentsByDoctorId.
  erewrite getMany_run.
  - reflexivity.
  - intros a.
    cbn [wheres parameters take skip orderBy where_ setParameters set_wheres
         createQueryBuilder where_holds where_rest].
    read_conditions.
    cbn [mbind option_bind where_rest compare_with column].
    now rewrite Z.geb_leb.
Qed.


Lemma filter_length_bound {A} (p : A -> bool) l :
  (length (List.filter p l) <= length l)%nat.
Proof.
  induction l as [|a l IH]; [constructor|].
  cbn [List.filter]. destruct (p a); cbn [length]; lia.
Qed.

Lemma firstn_whole {A} n (l : list A) :
  (length l <= n)%nat -> firstn n l = l.
Proof.
  revert n. induction l as [|a l IH]; intros [|n] H; cbn in *;
    [reflexivity | reflexivity | lia | f_equal; apply IH; lia].
Qed.

(** X4. The appointment [getActiveAppointmentByDoctorId] resolves with is
    on the first page of [getFutureAppointmentsByDoctorId] for that doctor
    whenever the page is large enough for the table (offset 0, limit at
    least the number of stored appointments). *)
Theorem active_appointment_is_listed_as_future srv db id pagination a :
  getActiveAppointmentByDoctorId srv db id = Resolved (Some a) ->
  offset pagination = 0%nat ->
  (length (appointments db) <= limit pagination)%nat ->
  exists l,
    getFutureAppointmentsByDoctorId srv db id pagination = Resolved l
    /\ In a l.
Proof.
  intros Ha Ho Hl.
  rewrite getActiveAppointmentByDoctorId_run in Ha. injection Ha as Ha.
  apply head_filter_Some in Ha as [Hin Hact].
  apply active_spec in Hact as [Hinv Hnow].
  eexists. split; [apply getFutureAppointmentsByDoctorId_run|].
  assert (Hlisted : In a (sort_by Appointment.startTime
            (List.filter (upcoming (clock srv) id) (appointments db)))).
  { apply sort_by_In, filter_In. split; [exact Hin|].
    apply upcoming_spec. split; [exact Hinv | lia]. }
  rewrite Ho. unfold paged. rewrite skipn_O.
  destruct (limit pagination) as [|n] eqn:E; [exact Hlisted|].
  rewrite firstn_whole; [exact Hlisted|].
  rewrite (Permutation_length (sort_by_Permutation _ _)).
  pose proof (filter_length_bound (upcoming (clock srv) id) (appointments db)).
  lia.
Qed.

(** At half past nine the check-up of doctor 1 is going on. *)
Lemma active_appointment_is_listed_as_future_witness :
  getActiveAppointmentByDoctorId Night.half_past_nine Clinic.db 1
    = Resolved (Some Clinic.checkup)
  /\ offset (Clinic.request Filter.future 0 10 false) = 0%nat
  /\ (length (appointments Clinic.db)
      <= limit (Clinic.request Filter.future 0 10 false))%nat
  /\ exists l,
       getFutureAppointmentsByDoctorId Night.half_past_nine Clinic.db 1
         (Clinic.request Filter.future 0 10 false) = Resolved l
       /\ In Clinic.checkup l.
Proof.
  split; [vm_compute; reflexivity|]. split; [reflexivity|].
  split; [vm_compute; lia|].
  apply (active_appointment_is_listed_as_future Night.half_past_nine
           Clinic.db 1 (Clinic.request Filter.future 0 10 false)
           Clinic.checkup);
    [vm_compute; reflexivity | reflexivity | vm_compute; lia].
Defined.

(** ** The filtered listing: past, today, and every page *)

(** X5. For a doctor with a recognized role and filter past with offset N,
    whatever [getAllAppointments] resolves with is the page ([offset *
    limit] rows skipped, then [limit] rows, or all of them when [limit] is
    0) of a bucket that is ascending in endTime and holds exactly the
    appointments the doctor may see whose endTime is at or after one
    millisecond before midnight of the day N days before today and
    strictly before start-of-today. *)
Theorem getAllAppointments_past_bucket orm srv db id pagination d l :
  Repository.findOne Doctor.id id (doctors db) = Some d ->
  recognized (Doctor.role d) ->
  filter pagination = Filter.past ->
  getAllAppointments orm srv db id pagination = Resolved l ->
  exists bucket,
    l = page pagination bucket
    /\ ascending col_endTime bucket
    /\ Permutation bucket
         (List.filter (fun a => visible d (showAll pagination) id a
                                && within_past srv pagination a)
            (appointments db))
    /\ (forall a, In a bucket <->
          In a (appointments db)
          /\ visible d (showAll pagination) id a = true
          /\ midnight srv (today_number srv - Z.of_nat (offset pagination))
               - 1
             <= Appointment.endTime a < startOfToday srv).
Proof.
  intros Hd Hr Hf Hl.
  destruct (getAllAppointments_resolved_inv _ _ _ _ _ _ Hl) as (-> & _).
  rewrite (getAllAppointments_past_run _ _ _ _ _ Hd Hr Hf) in Hl.
  injection Hl as <-.
  eexists. split; [reflexivity|]. split; [apply sort_by_sorted|].
  split; [apply sort_by_Permutation|].
  intros a. rewrite sort_by_In, filter_In, andb_true_iff, within_past_spec.
  tauto.
Qed.

(** The local doctor of the night clinic, looking one day back, where the
    call resolves. *)
Lemma getAllAppointments_past_bucket_witness :
  Repository.findOne Doctor.id 1 (doctors Night.db)
    = Some (Doctor.make 1 Role.LocalDoctor)
  /\ recognized (Doctor.role (Doctor.make 1 Role.LocalDoctor))
  /\ filter (Clinic.request Filter.past 1 1 false) = Filter.past
  /\ getAllAppointments legacy Clinic.noon Night.db 1
       (Clinic.request Filter.past 1 1 false)
     = Resolved [Night.late]
  /\ exists bucket,
       [Night.late] = page (Clinic.request Filter.past 1 1 false) bucket
       /\ ascending col_endTime bucket
       /\ Permutation bucket
            (List.filter
               (fun a => visible (Doctor.make 1 Role.LocalDoctor) false 1 a
                         && within_past Clinic.noon
                              (Clinic.request Filter.past 1 1 false) a)
               (appointments Night.db))
       /\ (forall a, In a bucket <->
             In a (appointments Night.db)
             /\ visible (Doctor.make 1 Role.LocalDoctor) false 1 a = true
             /\ midnight Clinic.noon (today_number Clinic.noon - Z.of_nat 1)
                  - 1
                <= Appointment.endTime a < startOfToday Clinic.noon).
Proof.
  split; [reflexivity|]. split; [left; reflexivity|]. split; [reflexivity|].
  split; [vm_compute; reflexivity|].
  apply (getAllAppointments_past_bucket legacy Clinic.noon Night.db 1
           (Clinic.request Filter.past 1 1 false)
           (Doctor.make 1 Role.LocalDoctor));
    [reflexivity | left; reflexivity | reflexivity | vm_compute; reflexivity].
Defined.

(** X6. With filter past and offset 0 the bucket is one millisecond wide:
    whatever [getAllAppointments] resolves with, every appointment in it
    ended exactly one millisecond before start-of-today. An appointment of
    yesterday that ended earlier is not on the first page of the past. *)
Theorem getAllAppointments_past_first_page orm srv db id pagination l :
  filter pagination = Filter.past ->
  offset pagination = 0%nat ->
  getAllAppointments orm srv db id pagination = Resolved l ->
  List.Forall (fun a => Appointment.endTime a = startOfToday srv - 1) l.
Proof.
  intros Hf Ho Hl.
  destruct (getAllAppointments_resolved_inv _ _ _ _ _ _ Hl)
    as (-> & d & Hd & Hr & _).
  rewrite (getAllAppointments_past_run _ _ _ _ _ Hd Hr Hf) in Hl.
  injection Hl as <-.
  apply page_Forall, sort_by_Forall, filter_Forall. intros a Ha.
  apply andb_true_iff in Ha as [_ Ha]. apply within_past_spec in Ha.
  rewrite Ho in Ha. cbn [Z.of_nat] in Ha.
  rewrite Z.sub_0_r, <- startOfToday_eq in Ha. lia.
Qed.

(** Of the two appointments of yesterday only the one that ended at
    23:59:59.999 is returned. *)
Lemma getAllAppointments_past_first_page_witness :
  filter (Clinic.request Filter.past 0 10 false) = Filter.past
  /\ offset (Clinic.request Filter.past 0 10 false) = 0%nat
  /\ getAllAppointments legacy Clinic.noon Night.db 1
       (Clinic.request Filter.past 0 10 false)
     = Resolved [Night.late]
  /\ List.Forall
       (fun a => Appointment.endTime a = startOfToday Clinic.noon - 1)
       [Night.late].
Proof.
  split; [reflexivity|]. split; [reflexivity|].
  split; [vm_compute; reflexivity|].
  apply (getAllAppointments_past_first_page legacy Clinic.noon Night.db 1
           (Clinic.request Filter.past 0 10 false));
    [reflexivity | reflexivity | vm_compute; reflexivity].
Defined.

(** X7. With filter today the answer of [getAllAppointments] owes nothing
    to the clock or the zone of the server: on any two servers the call
    settles the same way, on either library. Whatever it resolves with is
    the asked page of a listing, ascending in startTime, of all the
    appointments the doctor may see: no time condition is bound. *)
Theorem getAllAppointments_today_listing orm srv db id pagination :
  filter pagination = Filter.today ->
  (forall srv',
     getAllAppointments orm srv' db id pagination
     = getAllAppointments orm srv db id pagination)
  /\ (forall d l,
        Repository.findOne Doctor.id id (doctors db) = Some d ->
        getAllAppointments orm srv db id pagination = Resolved l ->
        exists listing,
          l = page pagination listing
          /\ ascending col_startTime listing
          /\ Permutation listing
               (List.filter (visible d (showAll pagination) id)
                  (appointments db))).
Proof.
  intros Hf. split.
  - intros srv'.
    destruct (Repository.findOne Doctor.id id (doctors db)) as [d|] eqn:Hd;
      [|now rewrite !(getAllAppointments_unknown_doctor _ _ _ _ _ Hd)].
    destruct orm;
      [|now rewrite !(getAllAppointments_current_throws _ _ _ _ _ Hd)].
    destruct (recognized_dec (Doctor.role d)) as [Hr|Hr].
    + now rewrite !(getAllAppointments_today_run _ _ _ _ _ Hd Hr Hf).
    + now rewrite !(getAllAppointments_invalid_role _ _ _ _ _ Hd Hr).
  - intros d l Hd Hl.
    destruct (getAllAppointments_resolved_inv _ _ _ _ _ _ Hl)
      as (-> & d' & Hd' & Hr & _).
    assert (d' = d) as -> by congruence.
    rewrite (getAllAppointments_today_run _ _ _ _ _ Hd Hr Hf) in Hl.
    injection Hl as <-.
    eexists. split; [reflexivity|].
    split; [apply sort_by_sorted | apply sort_by_Permutation].
Qed.

(** The local doctor of the clinic at noon, where the call resolves. *)
Lemma getAllAppointments_today_listing_witness :
  filter (Clinic.request Filter.today 0 10 false) = Filter.today
  /\ (forall srv',
        getAllAppointments legacy srv' Clinic.db 1
          (Clinic.request Filter.today 0 10 false)
        = getAllAppointments legacy Clinic.noon Clinic.db 1
            (Clinic.request Filter.today 0 10 false))
  /\ (forall d l,
        Repository.findOne Doctor.id 1 (doctors Clinic.db) = Some d ->
        getAllAppointments legacy Clinic.noon Clinic.db 1
          (Clinic.request Filter.today 0 10 false) = Resolved l ->
        exists listing,
          l = page (Clinic.request Filter.today 0 10 false) listing
          /\ ascending col_startTime listing
          /\ Permutation listing
               (List.filter (visible d false 1) (appointments Clinic.db))).
Proof.
  split; [reflexivity|].
  apply (getAllAppointments_today_listing legacy Clinic.noon Clinic.db 1
           (Clinic.request Filter.today 0 10 false)).
  reflexivity.
Defined.

Lemma firstn_length_bound {A} n (l : list A) : (length (firstn n l) <= n)%nat.
Proof.
  revert l. induction n as [|n IH]; intros [|a l]; cbn [firstn length];
    [lia | lia | lia | specialize (IH l); lia].
Qed.

(** X8. Whatever [getAllAppointments] resolves with holds stored
    appointments only, in ascending order of the column of the filter
    (endTime for past, startTime for today and future), and, when the
    limit is above 0, at most [limit] of them. *)
Theorem getAllAppointments_page_shape orm srv db id pagination l :
  getAllAppointments orm srv db id pagination = Resolved l ->
  ((0 < limit pagination)%nat -> (length l <= limit pagination)%nat)
  /\ ascending (sort_column pagination) l
  /\ (forall a, In a l -> In a (appointments db)).
Proof.
  intros Hl.
  destruct (getAllAppointments_resolved_inv _ _ _ _ _ _ Hl)
    as (_ & d & Hd & _).
  rewrite (getAllAppointments_run _ _ _ _ _ _ _ Hd Hl).
  split; [|split].
  - intros Hpos. unfold page.
    destruct (Nat.eqb_spec (limit pagination) 0); [lia|].
    apply firstn_length_bound.
  - apply page_sorted, sort_by_sorted.
  - intros a Ha. apply page_In, sort_by_In, filter_In in Ha. tauto.
Qed.

(** The second of the two appointments of today, alone on its page. *)
Lemma getAllAppointments_page_shape_witness :
  getAllAppointments legacy Clinic.noon Clinic.db 2
    (Clinic.request Filter.future 1 1 false)
  = Resolved [Clinic.followup]
  /\ ((0 < limit (Clinic.request Filter.future 1 1 false))%nat ->
      (length [Clinic.followup]
       <= limit (Clinic.request Filter.future 1 1 false))%nat)
  /\ ascending (sort_column (Clinic.request Filter.future 1 1 false))
       [Clinic.followup]
  /\ (forall a, In a [Clinic.followup] -> In a (appointments Clinic.db)).
Proof.
  split; [vm_compute; reflexivity|].
  apply (getAllAppointments_page_shape legacy Clinic.noon Clinic.db 2
           (Clinic.request Filter.future 1 1 false)).
  vm_compute; reflexivity.
Defined.

(** X15. Whatever [getAllAppointments] resolves with, on either library,
    a local doctor who did not ask for [showAll] only gets appointments
    on which they are the local doctor, and a remote doctor only
    appointments on which they are the remote doctor, whatever [showAll]
    says. *)
Theorem getAllAppointments_own_rows_only orm srv db id pagination d l :
  Repository.findOne Doctor.id id (doctors db) = Some d ->
  getAllAppointments orm srv db id pagination = Resolved l ->
  (Doctor.role d = Role.LocalDoctor -> showAll pagination = false ->
   List.Forall (fun a => Appointment.localDoctorId a = id) l)
  /\ (Doctor.role d = Role.RemoteDoctor ->
      List.Forall (fun a => Appointment.remoteDoctorId a = id) l).
Proof.
  intros Hd Hl.
  pose proof (getAllAppointments_visible_only _ _ _ _ _ _ _ Hd Hl) as Hv.
  split.
  - intros Hr Hall. revert Hv. apply List.Forall_impl.
    intros a Ha. rewrite visible_local, Hall in Ha by assumption.
    now apply Z.eqb_eq.
  - intros Hr. revert Hv. apply List.Forall_impl.
    intros a Ha. rewrite visible_remote in Ha by assumption.
    now apply Z.eqb_eq.
Qed.

(** The local doctor of the clinic, where the call resolves. *)
Lemma getAllAppointments_own_rows_only_witness :
  Repository.findOne Doctor.id 1 (doctors Clinic.db)
    = Some (Doctor.make 1 Role.LocalDoctor)
  /\ getAllAppointments legacy Clinic.noon Clinic.db 1
       (Clinic.request Filter.future 0 10 false)
     = Resolved [Clinic.checkup; Clinic.followup]
  /\ List.Forall (fun a => Appointment.localDoctorId a = 1)
       [Clinic.checkup; Clinic.followup].
Proof.
  split; [reflexivity|]. split; [vm_compute; reflexivity|].
  apply (proj1 (getAllAppointments_own_rows_only legacy Clinic.noon Clinic.db 1
                  (Clinic.request Filter.future 0 10 false)
                  (Doctor.make 1 Role.LocalDoctor)
                  [Clinic.checkup; Clinic.followup]
                  eq_refl ltac:(vm_compute; reflexivity)));
    reflexivity.
Defined.

(** ** Commands and what is read after them *)

Lemma find_delete_same id rows :
  Repository.findOne Appointment.id id (Repository.delete id rows) = None.
Proof.
  unfold Repository.findOne, Repository.delete.
  induction rows as [|a rows IH]; [reflexivity|].
  cbn [List.filter]. destruct (Appointment.id a =? id) eqn:E; cbn [negb];
    [exact IH|].
  cbn [List.find]. now rewrite E.
Qed.

Lemma find_delete_other id j rows :
  j <> id ->
  Repository.findOne Appointment.id j (Repository.delete id rows)
  = Repository.findOne Appointment.id j rows.
Proof.
  intros Hj. unfold Repository.findOne, Repository.delete.
  induction rows as [|a rows IH]; [reflexivity|].
  cbn [List.filter List.find].
  destruct (Z.eqb_spec (Appointment.id a) id) as [E|N]; cbn [negb].
  - destruct (Z.eqb_spec (Appointment.id a) j) as [E'|_]; [congruence|].
    exact IH.
  - cbn [List.find]. now rewrite IH.
Qed.

Lemma delete_gone id rows a :
  In a (Repository.delete id rows) -> Appointment.id a <> id.
Proof.
  unfold Repository.delete. intros H. apply filter_In in H as [_ H].
  apply negb_true_iff in H. now apply Z.eqb_neq.
Qed.

(** X10. After [deleteAppointment] the identifier is gone: looking it up
    with [getAppointmentById] resolves with nothing, whether it was there
    before or not. Every other identifier is looked up as before, the
    doctors are untouched, and deleting once more changes nothing. *)
Theorem deleteAppointment_then_getAppointmentById db id :
  getAppointmentById (snd (deleteAppointment db id)) id = Resolved None
  /\ (forall j, j <> id ->
        getAppointmentById (snd (deleteAppointment db id)) j
        = getAppointmentById db j)
  /\ doctors (snd (deleteAppointment db id)) = doctors db
  /\ deleteAppointment (snd (deleteAppointment db id)) id
     = (Resolved tt, snd (deleteAppointment db id)).
Proof.
  unfold getAppointmentById, deleteAppointment.
  cbn [snd with_appointments appointments doctors].
  split; [now rewrite find_delete_same|].
  split; [intros j Hj; now rewrite find_delete_other|].
  split; [reflexivity|].
  f_equal. unfold with_appointments. cbn [doctors]. f_equal.
  apply delete_absent. intros a. apply delete_gone.
Qed.

Lemma find_relinked_same id link rows :
  Repository.findOne Appointment.id id (Repository.update_link id link rows)
  = option_map (Appointment.with_link link)
      (Repository.findOne Appointment.id id rows).
Proof.
  unfold Repository.findOne, Repository.update_link.
  induction rows as [|a rows IH]; [reflexivity|].
  cbn [List.map List.find].
  destruct (Appointment.id a =? id) eqn:E.
  - cbn [Appointment.with_link Appointment.id]. now rewrite E.
  - now rewrite E.
Qed.

Lemma find_relinked_other id j link rows :
  j <> id ->
  Repository.findOne Appointment.id j (Repository.update_link id link rows)
  = Repository.findOne Appointment.id j rows.
Proof.
  intros Hj. unfold Repository.findOne, Repository.update_link.
  induction rows as [|a rows IH]; [reflexivity|].
  cbn [List.map List.find].
  destruct (Z.eqb_spec (Appointment.id a) id) as [E|N].
  - cbn [Appointment.with_link Appointment.id].
    destruct (Z.eqb_spec (Appointment.id a) j) as [E'|_]; [congruence|].
    exact IH.
  - now rewrite IH.
Qed.

(** X11. What [postLinkAppointment] writes, [getAppointmentById] reads
    back: an identifier that was found before is found with the new link
    and all its other fields as they were; one that was not found is still
    not found, no row is created; every other identifier is looked up as
    before. *)
Theorem postLinkAppointment_then_getAppointmentById db id link :
  (forall a, getAppointmentById db id = Resolved (Some a) ->
     exists a',
       getAppointmentById (snd (postLinkAppointment db id link)) id
         = Resolved (Some a')
       /\ Appointment.link a' = link /\ same_but_link a a')
  /\ (getAppointmentById db id = Resolved None ->
      getAppointmentById (snd (postLinkAppointment db id link)) id
        = Resolved None)
  /\ (forall j, j <> id ->
        getAppointmentById (snd (postLinkAppointment db id link)) j
        = getAppointmentById db j).
Proof.
  unfold getAppointmentById, postLinkAppointment.
  cbn [snd with_appointments appointments].
  split; [|split].
  - intros a Ha. injection Ha as Ha.
    exists (Appointment.with_link link a).
    rewrite find_relinked_same, Ha. cbn [option_map].
    split; [reflexivity|]. split; [reflexivity|].
    apply with_link_same_but_link.
  - intros Ha. injection Ha as Ha. now rewrite find_relinked_same, Ha.
  - intros j Hj. now rewrite find_relinked_other.
Qed.

(** The check-up of the clinic gets a new room. *)
Lemma postLinkAppointment_then_getAppointmentById_witness :
  getAppointmentById Clinic.db 1 = Resolved (Some Clinic.checkup)
  /\ exists a',
       getAppointmentById
         (snd (postLinkAppointment Clinic.db 1 "https://meet.example/room"))
         1
       = Resolved (Some a')
       /\ Appointment.link a' = "https://meet.example/room"
       /\ same_but_link Clinic.checkup a'.
Proof.
  split; [reflexivity|].
  apply (proj1 (postLinkAppointment_then_getAppointmentById Clinic.db 1
                  "https://meet.example/room")).
  reflexivity.
Defined.

(** No statement the query builder runs can tell two rows apart that agree
    on every column but the link. *)
Section ColumnBlind.
Variable f : Appointment.t -> Appointment.t.
Hypothesis f_columns : forall c a, column c (f a) = column c a.

Lemma holds_blind ps c a : holds ps c (f a) = holds ps c a.
Proof.
  induction c as [col op p|l IHl r IHr|l IHl r IHr]; cbn [holds].
  - now rewrite f_columns.
  - now rewrite IHl, IHr.
  - now rewrite IHl, IHr.
Qed.

Lemma where_rest_blind ps ws acc a :
  where_rest ps ws acc (f a) = where_rest ps ws acc a.
Proof.
  revert acc. induction ws as [|[t c] ws IH]; intros acc; [reflexivity|].
  destruct t; cbn [where_rest]; rewrite holds_blind;
    destruct (holds ps c a); cbn [mbind option_bind]; try reflexivity;
    now rewrite IH.
Qed.

Lemma where_holds_blind ps ws a : where_holds ps ws (f a) = where_holds ps ws a.
Proof.
  destruct ws as [|[t c] ws]; [reflexivity|].
  cbn [where_holds]. rewrite holds_blind.
  destruct (holds ps c a); cbn [mbind option_bind]; [|reflexivity].
  apply where_rest_blind.
Qed.

Lemma select_blind ps ws rows :
  select ps ws (List.map f rows) = option_map (List.map f) (select ps ws rows).
Proof.
  induction rows as [|a rows IH]; [reflexivity|].
  cbn [List.map select]. rewrite where_holds_blind, IH.
  destruct (where_holds ps ws a) as [keep|]; cbn [mbind option_bind];
    [|reflexivity].
  destruct (select ps ws rows); cbn [option_map mbind option_bind];
    [|reflexivity].
  now destruct keep.
Qed.

Lemma insert_by_blind c a l :
  insert_by (column c) (f a) (List.map f l)
  = List.map f (insert_by (column c) a l).
Proof.
  induction l as [|b l IH]; [reflexivity|].
  cbn [List.map insert_by]. rewrite !f_columns.
  destruct (column c a <=? column c b); cbn [List.map]; [reflexivity|].
  now rewrite IH.
Qed.

Lemma sort_by_blind c l :
  sort_by (column c) (List.map f l) = List.map f (sort_by (column c) l).
Proof.
  induction l as [|a l IH]; [reflexivity|].
  cbn [List.map sort_by]. now rewrite IH, insert_by_blind.
Qed.

Lemma getMany_blind qb rows :
  getMany qb (List.map f rows) = Promise_map (List.map f) (getMany qb rows).
Proof.
  unfold getMany. rewrite select_blind.
  destruct (select (parameters qb) (wheres qb) rows) as [l|];
    cbn [option_map Promise_map]; [|reflexivity].
  f_equal. unfold paged, ordered.
  destruct (orderBys qb) as [c|]; [rewrite sort_by_blind|];
    destruct (skip_ qb), (take_ qb) as [[|k]|];
    now rewrite ?skipn_map, ?firstn_map.
Qed.
End ColumnBlind.

Lemma relinked_columns id link c a : column c (relinked id link a) = column c a.
Proof.
  unfold relinked. destruct (Appointment.id a =? id); [|reflexivity].
  now destruct c.
Qed.

Lemma getMany_relinked id link qb rows :
  getMany qb (Repository.update_link id link rows)
  = Promise_map (Repository.update_link id link) (getMany qb rows).
Proof. exact (getMany_blind _ (relinked_columns id link) qb rows). Qed.

(** X12. [postLinkAppointment] changes no listing but for the link
    itself: after it, each of the five reading operations answers as
    before, with the link updated in the rows it returns. The same
    appointments come back, in the same order, on the same pages, and a
    call that was rejected is rejected in the same way. *)
Theorem postLinkAppointment_keeps_listings orm srv db i link id pagination :
  getAllAppointments orm srv (snd (postLinkAppointment db i link)) id
    pagination
  = Promise_map (Repository.update_link i link)
      (getAllAppointments orm srv db id pagination)
  /\ getFutureAppointmentsByDoctorId srv
       (snd (postLinkAppointment db i link)) id pagination
     = Promise_map (Repository.update_link i link)
         (getFutureAppointmentsByDoctorId srv db id pagination)
  /\ getAppointmentsByPatientId (snd (postLinkAppointment db i link)) id
     = Promise_map (Repository.update_link i link)
         (getAppointmentsByPatientId db id)
  /\ getAllAppointmentsByDoctorId (snd (postLinkAppointment db i link)) id
     = Promise_map (Repository.update_link i link)
         (getAllAppointmentsByDoctorId db id)
  /\ getActiveAppointmentByDoctorId srv
       (snd (postLinkAppointment db i link)) id
     = Promise_map (option_map (relinked i link))
         (getActiveAppointmentByDoctorId srv db id).
Proof.
  unfold postLinkAppointment. cbn [snd].
  split; [|split; [|split; [|split]]].
  - unfold getAllAppointments.
    cbn [with_appointments doctors appointments].
    destruct (Repository.findOne Doctor.id id (doctors db)); [|reflexivity].
    destruct orm; cbn [where_undefined mbind Promise_bind]; [|reflexivity].
    repeat match goal with
           | |- context [if ?b then _ else _] => destruct b
           end;
      cbn [mbind Promise_bind Promise_map];
      first [reflexivity | apply getMany_relinked].
  - apply getMany_relinked.
  - apply getMany_relinked.
  - unfold getAllAppointmentsByDoctorId.
    cbn [with_appointments appointments]. rewrite getMany_relinked.
    destruct (getMany _ (appointments db)) as [l|e];
      cbn [mbind Promise_bind Promise_map]; [|reflexivity].
    unfold Repository.update_link. rewrite length_map.
    now destruct (length l =? 0)%nat.
  - unfold getActiveAppointmentByDoctorId, getOne.
    cbn [with_appointments appointments]. rewrite getMany_relinked.
    destruct (getMany _ (appointments db)) as [l|e];
      cbn [mbind Promise_bind Promise_map]; [|reflexivity].
    now destruct l.
Qed.

Lemma filter_swap {A} (p q : A -> bool) l :
  List.filter p (List.filter q l) = List.filter q (List.filter p l).
Proof.
  induction l as [|a l IH]; [reflexivity|].
  cbn [List.filter]. destruct (p a) eqn:Ep, (q a) eqn:Eq;
    cbn [List.filter]; rewrite ?Ep, ?Eq, IH; reflexivity.
Qed.

(** X13. [deleteAppointment] takes the appointment, and nothing else, out
    of a patient's listing: after it, [getAppointmentsByPatientId]
    resolves with what it resolved with before, less the rows with the
    deleted identifier, and none of the rows it returns has that
    identifier. *)
Theorem deleteAppointment_then_getAppointmentsByPatientId db i id :
  exists l,
    getAppointmentsByPatientId db id = Resolved l
    /\ getAppointmentsByPatientId (snd (deleteAppointment db i)) id
       = Resolved (Repository.delete i l)
    /\ (forall a, In a (Repository.delete i l) <->
          In a l /\ Appointment.id a <> i).
Proof.
  eexists. split; [apply getAppointmentsByPatientId_run|]. split.
  - rewrite getAppointmentsByPatientId_run.
    unfold deleteAppointment. cbn [snd with_appointments appointments].
    unfold Repository.delete. now rewrite filter_swap.
  - intros a. unfold Repository.delete.
    rewrite filter_In, negb_true_iff, Z.eqb_neq. tauto.
Qed.

(** Every row a statement returns is a row of the table it ran on. *)
Lemma select_incl ps ws rows l :
  select ps ws rows = Some l -> forall a, In a l -> In a rows.
Proof.
  revert l. induction rows as [|b rows IH]; intros l H a Ha.
  - injection H as <-. destruct Ha.
  - cbn [select] in H.
    destruct (where_holds ps ws b) as [keep|]; [|discriminate].
    destruct (select ps ws rows) as [rest|]; [|discriminate].
    cbn [mbind option_bind] in H. injection H as <-.
    destruct keep; [destruct Ha as [<-|Ha]; [now left|]|];
      right; now apply (IH rest).
Qed.

Lemma getMany_incl qb rows l :
  getMany qb rows = Resolved l -> forall a, In a l -> In a rows.
Proof.
  unfold getMany. intros H a Ha.
  destruct (select (parameters qb) (wheres qb) rows) as [l0|] eqn:E;
    [|discriminate].
  injection H as <-. apply (select_incl _ _ _ _ E).
  unfold paged, ordered in Ha.
  destruct (take_ qb) as [[|k]|]; [|apply firstn_incl in Ha|];
    (destruct (skip_ qb); [apply skipn_incl in Ha|]);
    (destruct (orderBys qb); [now apply sort_by_In in Ha | exact Ha]).
Qed.

Lemma getMany_after_delete qb i rows l :
  getMany qb (Repository.delete i rows) = Resolved l ->
  List.Forall (fun a => Appointment.id a <> i) l.
Proof.
  intros H. apply List.Forall_forall. intros a Ha.
  apply (delete_gone i rows). now apply (getMany_incl _ _ _ H).
Qed.

(** X14. A deleted appointment is never returned again: after
    [deleteAppointment], whatever [getAllAppointments],
    [getFutureAppointmentsByDoctorId], [getAllAppointmentsByDoctorId] or
    [getActiveAppointmentByDoctorId] resolve with, no row in it has the
    deleted identifier. *)
Theorem deleted_appointment_is_never_returned orm srv db i id pagination :
  (forall l,
     getAllAppointments orm srv (snd (deleteAppointment db i)) id pagination
       = Resolved l ->
     List.Forall (fun a => Appointment.id a <> i) l)
  /\ (forall l,
        getFutureAppointmentsByDoctorId srv (snd (deleteAppointment db i))
          id pagination = Resolved l ->
        List.Forall (fun a => Appointment.id a <> i) l)
  /\ (forall l,
        getAllAppointmentsByDoctorId (snd (deleteAppointment db i)) id
          = Resolved l ->
        List.Forall (fun a => Appointment.id a <> i) l)
  /\ (forall a,
        getActiveAppointmentByDoctorId srv (snd (deleteAppointment db i)) id
          = Resolved (Some a) ->
        Appointment.id a <> i).
Proof.
  unfold deleteAppointment. cbn [snd].
  split; [|split; [|split]].
  - intros l. unfold getAllAppointments.
    cbn [with_appointments doctors appointments].
    destruct (Repository.findOne Doctor.id id (doctors db)); [|discriminate].
    destruct orm; cbn [where_undefined mbind Promise_bind]; [|discriminate].
    repeat match goal with
           | |- context [if ?b then _ else _] => destruct b
           end;
      cbn [mbind Promise_bind];
      first [discriminate | apply getMany_after_delete].
  - intros l. apply getMany_after_delete.
  - intros l. unfold getAllAppointmentsByDoctorId.
    cbn [with_appointments appointments].
    destruct (getMany _ (Repository.delete i (appointments db)))
      as [l0|e] eqn:E; cbn [mbind Promise_bind]; [|discriminate].
    destruct (length l0 =? 0)%nat; [discriminate|].
    intros H. injection H as <-. now apply (getMany_after_delete _ _ _ _ E).
  - intros a. unfold getActiveAppointmentByDoctorId, getOne.
    cbn [with_appointments appointments].
    destruct (getMany _ (Repository.delete i (appointments db)))
      as [l0|e] eqn:E; cbn [mbind Promise_bind]; [|discriminate].
    intros H. injection H as H.
    pose proof (getMany_after_delete _ _ _ _ E) as Hall.
    destruct l0 as [|b l0]; [discriminate|]. injection H as ->.
    now inversion Hall.
Qed.

(** Doctor 1 after the check-up was deleted: the follow-up is what is
    left of today. *)
Lemma deleted_appointment_is_never_returned_witness :
  getAllAppointments legacy Clinic.noon (snd (deleteAppointment Clinic.db 1)) 1
    (Clinic.request Filter.future 0 10 false)
  = Resolved [Clinic.followup]
  /\ List.Forall (fun a => Appointment.id a <> 1) [Clinic.followup].
Proof.
  split; [vm_compute; reflexivity|].
  apply (proj1 (deleted_appointment_is_never_returned legacy Clinic.noon
                  Clinic.db 1 1 (Clinic.request Filter.future 0 10 false))).
  vm_compute; reflexivity.
Defined.

